(** * Jikan anime-list scraper (src/scrape.py): model and verified properties

    The development follows the class [JikanScraper]:
    - [_extract_anime_data] turns one decoded API response into flat records;
    - [scrape_page] fetches one page with retries and exponential backoff;
    - [scrape_range] drives the pages of a range and accumulates the records.

    Decoded JSON is modelled as the values [json.loads] builds, Python's
    duck-typed accesses ([.get], subscripting, iteration, [str.join]) as
    functions that return a value or the exception Python raises, and the
    network, the clock and the console as an explicit world: a script of
    responses consumed request by request and a trace of the effects. *)

From Stdlib Require Import ZArith List String Ascii Bool Lia PrimFloat Sorted.
Import ListNotations.
Local Open Scope string_scope.
Local Open Scope list_scope.
Local Open Scope Z_scope.

(** ** Decoded JSON values *)

(** What [response.json()] returns: [None], [bool], [int], [float], [str],
    [list] or [dict].  A [str] is held as the bytes of its UTF-8
    encoding.  A [dict] keeps its keys in insertion order, so it is an
    association list; a decoded object has no duplicate key, and lookup
    takes the first binding. *)
#[local] Set Warnings "-register-all".
Inductive json : Type :=
| JNull
| JBool (b : bool)
| JInt (n : Z)
| JFloat (x : float)
| JStr (s : string)
| JArr (items : list json)
| JObj (fields : list (string * json)).
#[local] Set Warnings "register-all".

(** The exceptions that pass through the program: those the extractor
    and the display raise ([AttributeError], [TypeError], [KeyError]),
    those [response.json()] raises besides [JSONDecodeError]
    ([ValueError] for an integer over the digit limit of [int],
    [RecursionError] for a body nested too deep), and those of writing a
    file.  None of them is a [requests.exceptions.RequestException]. *)
Inductive exn : Type :=
| AttributeError
| TypeError
| KeyError (key : string)
| ValueError
| RecursionError
| UnicodeEncodeError
| OSError.

Inductive result (A : Type) : Type :=
| Ok (a : A)
| Raise (e : exn).
Arguments Ok {A} a.
Arguments Raise {A} e.

Definition rbind {A B} (r : result A) (k : A -> result B) : result B :=
  match r with
  | Ok a => k a
  | Raise e => Raise e
  end.

Declare Scope result_scope.
Delimit Scope result_scope with result.
Notation "x <- r ;; k" := (rbind r (fun x => k))
  (at level 61, r at next level, right associativity) : result_scope.

(** ** Python's accesses on decoded values *)

Fixpoint lookup (k : string) (d : list (string * json)) : option json :=
  match d with
  | [] => None
  | (k', v) :: rest => if String.eqb k k' then Some v else lookup k rest
  end.

(** [v.get(k, default)]: only a [dict] has a [get] method. *)
Definition py_get (v : json) (k : string) (default : json) : result json :=
  match v with
  | JObj d => Ok (match lookup k d with Some x => x | None => default end)
  | _ => Raise AttributeError
  end.

(** [v[k]] with a string key [k]. *)
Definition py_getitem (v : json) (k : string) : result json :=
  match v with
  | JObj d => match lookup k d with Some x => Ok x | None => Raise (KeyError k) end
  | _ => Raise TypeError
  end.

(** Text is held as the bytes of its UTF-8 encoding, while Python counts,
    slices and iterates text by character (code point).  A character is
    a byte together with the continuation bytes ([10xxxxxx]) that follow
    it. *)
Definition is_continuation (c : ascii) : bool :=
  match c with
  | Ascii _ _ _ _ _ _ b6 b7 => b7 && negb b6
  end.

Definition continues (s : string) : bool :=
  match s with
  | String c _ => is_continuation c
  | EmptyString => false
  end.

Fixpoint code_points (s : string) : list string :=
  match s with
  | EmptyString => []
  | String c rest =>
      match code_points rest with
      | p :: ps =>
          if continues rest then String c p :: ps
          else String c EmptyString :: p :: ps
      | [] => [String c EmptyString]
      end
  end.

Definition chars (s : string) : list json := map JStr (code_points s).

(** The text made of the given characters. *)
Definition text_of (characters : list string) : string :=
  fold_right String.append EmptyString characters.

(** [iter(v)]: a list yields its elements, a dict its keys, a string its
    characters; anything else is not iterable. *)
Definition py_iter (v : json) : result (list json) :=
  match v with
  | JArr l => Ok l
  | JObj d => Ok (map (fun kv => JStr (fst kv)) d)
  | JStr s => Ok (chars s)
  | _ => Raise TypeError
  end.

(** [v == 'Default'] for a decoded value [v]. *)
Definition py_eq_str (v : json) (s : string) : bool :=
  match v with
  | JStr s' => String.eqb s' s
  | _ => false
  end.

(** The operand list of [", ".join(...)]: every element must be a [str]. *)
Fixpoint str_items (l : list json) : result (list string) :=
  match l with
  | [] => Ok []
  | JStr s :: rest => (ss <- str_items rest ;; Ok (s :: ss))%result
  | _ :: _ => Raise TypeError
  end.

Definition py_join (sep : string) (l : list json) : result string :=
  (ss <- str_items l ;; Ok (String.concat sep ss))%result.

(** ** The record extractor *)

(** One output record; the dict literal of lines 66-76 has exactly these
    keys, ['id'] being [reset_id]. *)
Record anime_info : Type := {
  reset_id : Z;
  title : json;
  score : json;
  scored_by : json;
  rank : json;
  popularity : json;
  members : json;
  favorites : json;
  genres : string
}.

(** [next((title['title'] for title in titles if title.get('type') ==
    'Default'), fallback)]. *)
Fixpoint first_default (titles : list json) (fallback : json) : result json :=
  match titles with
  | [] => Ok fallback
  | t :: rest =>
      (ty <- py_get t "type" JNull ;;
       if py_eq_str ty "Default" then py_getitem t "title"
       else first_default rest fallback)%result
  end.

Definition default_title (anime : json) : result json :=
  (tv <- py_get anime "titles" (JArr []) ;;
   titles <- py_iter tv ;;
   fallback <- py_get anime "title" JNull ;;
   first_default titles fallback)%result.

(** [[genre['name'] for genre in genres]]. *)
Fixpoint genre_names (gs : list json) : result (list json) :=
  match gs with
  | [] => Ok []
  | g :: rest =>
      (n <- py_getitem g "name" ;;
       ns <- genre_names rest ;;
       Ok (n :: ns))%result
  end.

Definition genres_string (anime : json) : result string :=
  (gv <- py_get anime "genres" (JArr []) ;;
   gs <- py_iter gv ;;
   genre_list <- genre_names gs ;;
   py_join ", " genre_list)%result.

(** The body of the [for index, anime in enumerate(...)] loop. *)
Definition extract_item (page index : Z) (anime : json) : result anime_info :=
  (t <- default_title anime ;;
   g <- genres_string anime ;;
   sc <- py_get anime "score" JNull ;;
   sb <- py_get anime "scored_by" JNull ;;
   rk <- py_get anime "rank" JNull ;;
   pp <- py_get anime "popularity" JNull ;;
   mb <- py_get anime "members" JNull ;;
   fv <- py_get anime "favorites" JNull ;;
   Ok {| reset_id := (page - 1) * 25 + index + 1;
         title := t; score := sc; scored_by := sb; rank := rk;
         popularity := pp; members := mb; favorites := fv;
         genres := g |})%result.

Fixpoint extract_items (page index : Z) (items : list json)
  : result (list anime_info) :=
  match items with
  | [] => Ok []
  | anime :: rest =>
      (info <- extract_item page index anime ;;
       infos <- extract_items page (index + 1) rest ;;
       Ok (info :: infos))%result
  end.

Definition _extract_anime_data (api_response : json) (page : Z)
  : result (list anime_info) :=
  (dv <- py_get api_response "data" (JArr []) ;;
   items <- py_iter dv ;;
   extract_items page 0 items)%result.

(** ** The world of the fetcher *)

(** What one [session.get] leads to: the call raises a
    [RequestException] (timeout, connection error, ...), or it returns a
    response with a status code and a body; [body = None] stands for a
    body on which [response.json()] raises [requests.exceptions.
    JSONDecodeError], itself a [RequestException].  [ReplyRefused] is a
    response on whose body [response.json()] raises [e], an exception
    that is no [RequestException]. *)
Inductive response : Type :=
| ConnectionFailed
| Reply (status_code : Z) (body : option json)
| ReplyRefused (status_code : Z) (e : exn).

(** The network is a script: the [n]-th request of the run (counted from
    0) receives [net n].  The scraper is sequential and deterministic, so
    this covers every server behaviour. *)
Definition network : Type := nat -> response.

(** The argument of [time.sleep]: an [int] (the backoff [2 ** attempt]) or
    a [float] (the inter-request delay). *)
Inductive seconds : Type :=
| IntSecs (n : Z)
| FloatSecs (x : float).

(** The progress lines, by the position of their [print]. *)
Inductive message : Type :=
| MsgRateLimited (wait_time : Z)
| MsgAttemptFailed (attempt_no page : Z)
| MsgGaveUp (page max_retries : Z)
| MsgScraping (page end_page : Z)
| MsgFound (count : nat)
| MsgPageFailed (page : Z).

Inductive event : Type :=
| Get (page : Z)
| Sleep (secs : seconds)
| Print (m : message).

(** A computation starts when [sent] requests have been issued and ends
    with a value or an exception, the new request count and the events it
    produced, oldest first. *)
Record run (A : Type) : Type := Run {
  value : result A;
  sent : nat;
  trace : list event
}.
Arguments Run {A} value sent trace.
Arguments value {A} r.
Arguments sent {A} r.
Arguments trace {A} r.

Definition io (A : Type) : Type := nat -> run A.

Definition ret {A} (a : A) : io A := fun n => Run (Ok a) n [].

Definition lift {A} (r : result A) : io A := fun n => Run r n [].

Definition bind {A B} (m : io A) (k : A -> io B) : io B :=
  fun n =>
    let r := m n in
    match value r with
    | Ok a =>
        let r' := k a (sent r) in
        Run (value r') (sent r') (trace r ++ trace r')
    | Raise e => Run (Raise e) (sent r) (trace r)
    end.

Definition emit (e : event) : io unit := fun n => Run (Ok tt) n [e].

Definition http_get (net : network) (page : Z) : io response :=
  fun n => Run (Ok (net n)) (S n) [Get page].

Definition sleep (s : seconds) : io unit := emit (Sleep s).

Definition print (m : message) : io unit := emit (Print m).

Declare Scope io_scope.
Delimit Scope io_scope with io.
Notation "x <- m ;; k" := (bind m (fun x => k))
  (at level 61, m at next level, right associativity) : io_scope.
Notation "m ;; k" := (bind m (fun _ => k))
  (at level 61, right associativity) : io_scope.

(** ** The paginated fetcher *)

(** [range(lo, hi)]. *)
Definition py_range (lo hi : Z) : list Z :=
  map (fun i => lo + Z.of_nat i) (seq 0 (Z.to_nat (hi - lo))).

(** [response.raise_for_status()] raises an [HTTPError] on 4xx and 5xx. *)
Definition raises_for_status (status_code : Z) : bool :=
  (400 <=? status_code) && (status_code <? 600).

(** The [for attempt in range(max_retries)] loop of [scrape_page] over the
    attempts that remain. *)
Fixpoint scrape_attempts (net : network) (page max_retries : Z)
  (attempts : list Z) : io (option (list anime_info)) :=
  match attempts with
  | [] => ret None
  | attempt :: rest =>
      let on_request_exception : io (option (list anime_info)) :=
        (print (MsgAttemptFailed (attempt + 1) page) ;;
         if attempt <? max_retries - 1
         then sleep (IntSecs (2 ^ attempt)) ;;
              scrape_attempts net page max_retries rest
         else print (MsgGaveUp page max_retries) ;; ret None)%io in
      (resp <- http_get net page ;;
       match resp with
       | ConnectionFailed => on_request_exception
       | Reply status_code body =>
           if status_code =? 429 then
             print (MsgRateLimited (2 ^ attempt)) ;;
             sleep (IntSecs (2 ^ attempt)) ;;
             scrape_attempts net page max_retries rest
           else if raises_for_status status_code then on_request_exception
           else match body with
                | None => on_request_exception
                | Some data =>
                    recs <- lift (_extract_anime_data data page) ;;
                    ret (Some recs)
                end
       | ReplyRefused status_code e =>
           if status_code =? 429 then
             print (MsgRateLimited (2 ^ attempt)) ;;
             sleep (IntSecs (2 ^ attempt)) ;;
             scrape_attempts net page max_retries rest
           else if raises_for_status status_code then on_request_exception
           else lift (Raise e)
       end)%io
  end.

Definition scrape_page (net : network) (page max_retries : Z)
  : io (option (list anime_info)) :=
  scrape_attempts net page max_retries (py_range 0 max_retries).
Arguments scrape_page : simpl never.

(** [if page_data:] is false on [None] and on the empty list. *)
Definition truthy {A} (v : option (list A)) : bool :=
  match v with
  | Some (_ :: _) => true
  | _ => false
  end.

Definition list_of {A} (v : option (list A)) : list A :=
  match v with
  | Some l => l
  | None => []
  end.

(** One iteration of the loop of [scrape_range]. *)
Definition scrape_range_step (net : network) (end_page : Z) (delay : seconds)
  (page : Z) (all_data : list anime_info) : io (list anime_info) :=
  (print (MsgScraping page end_page) ;;
   page_data <- scrape_page net page 3 ;;
   all_data' <- (if truthy page_data
                 then print (MsgFound (List.length (list_of page_data))) ;;
                      ret (all_data ++ list_of page_data)
                 else print (MsgPageFailed page) ;; ret all_data) ;;
   (if page <? end_page then sleep delay else ret tt) ;;
   ret all_data')%io.

Fixpoint scrape_range_loop (net : network) (end_page : Z) (delay : seconds)
  (pages : list Z) (all_data : list anime_info) : io (list anime_info) :=
  match pages with
  | [] => ret all_data
  | page :: rest =>
      (all_data' <- scrape_range_step net end_page delay page all_data ;;
       scrape_range_loop net end_page delay rest all_data')%io
  end.

Definition scrape_range (net : network) (start_page end_page : Z)
  (delay : seconds) : io (list anime_info) :=
  scrape_range_loop net end_page delay (py_range start_page (end_page + 1)) [].

(** The call of [main]: [scrape_range(START_PAGE, END_PAGE, 0.5)]. *)
Definition DELAY_BETWEEN_REQUESTS : seconds := FloatSecs 0.5%float.

(** ** Observations on responses and traces *)

(** The outcomes of an attempt, read off the response the way the [try]
    block does: the 429 test comes first, then [raise_for_status], then
    the decoding of the body. *)
Definition rate_limited (r : response) : bool :=
  match r with
  | Reply status_code _ => status_code =? 429
  | ReplyRefused status_code _ => status_code =? 429
  | ConnectionFailed => false
  end.

Definition request_error (r : response) : bool :=
  match r with
  | ConnectionFailed => true
  | Reply status_code body =>
      negb (status_code =? 429) &&
      (raises_for_status status_code ||
       match body with None => true | Some _ => false end)
  | ReplyRefused status_code _ =>
      negb (status_code =? 429) && raises_for_status status_code
  end.

Definition failed (r : response) : bool := rate_limited r || request_error r.

Definition fetched (r : response) : option json :=
  match r with
  | Reply status_code (Some data) =>
      if (status_code =? 429) || raises_for_status status_code then None
      else Some data
  | _ => None
  end.

(** The exception of the decoder that ends the attempt: the response is
    neither rate limited nor refused by [raise_for_status], and
    [response.json()] raises. *)
Definition refused (r : response) : option exn :=
  match r with
  | ReplyRefused status_code e =>
      if (status_code =? 429) || raises_for_status status_code then None
      else Some e
  | _ => None
  end.

(** The events between the [n]-th request of a trace (from 0) and the next
    one. *)
Fixpoint until_get (evs : list event) : list event :=
  match evs with
  | [] => []
  | Get _ :: _ => []
  | e :: rest => e :: until_get rest
  end.

Fixpoint attempt_events (n : nat) (evs : list event) : list event :=
  match evs with
  | [] => []
  | Get _ :: rest =>
      match n with
      | O => until_get rest
      | S m => attempt_events m rest
      end
  | _ :: rest => attempt_events n rest
  end.

Fixpoint sleeps (evs : list event) : list seconds :=
  match evs with
  | [] => []
  | Sleep s :: rest => s :: sleeps rest
  | _ :: rest => sleeps rest
  end.

(** The pages requested, one entry per request. *)
Fixpoint requests (evs : list event) : list Z :=
  match evs with
  | [] => []
  | Get page :: rest => page :: requests rest
  | _ :: rest => requests rest
  end.

(** The pages the range loop announced, in order. *)
Fixpoint announced (evs : list event) : list Z :=
  match evs with
  | [] => []
  | Print (MsgScraping page _) :: rest => page :: announced rest
  | _ :: rest => announced rest
  end.

(** ** Shapes of decoded pages *)

(** [item.get(k)]. *)
Definition field_or_null (k : string) (v : json) : json :=
  match v with
  | JObj d => match lookup k d with Some x => x | None => JNull end
  | _ => JNull
  end.

Definition is_default (t : json) : bool :=
  py_eq_str (field_or_null "type" t) "Default".

Definition is_dict (v : json) : bool :=
  match v with
  | JObj _ => true
  | _ => false
  end.

(** A title variant the extractor can read: a mapping which, when tagged
    "Default", has a [title] key. *)
Definition wf_title_variant (t : json) : bool :=
  match t with
  | JObj d =>
      if is_default t
      then match lookup "title" d with Some _ => true | None => false end
      else true
  | _ => false
  end.

(** A genre tag the extractor can read: a mapping with a string [name]. *)
Definition wf_genre (g : json) : bool :=
  match g with
  | JObj d => match lookup "name" d with Some (JStr _) => true | _ => false end
  | _ => false
  end.


(** The scalar fields of a record are those of its item, null when the
    item lacks them. *)
Definition scalars_of (anime : json) (info : anime_info) : Prop :=
  score info = field_or_null "score" anime /\
  scored_by info = field_or_null "scored_by" anime /\
  rank info = field_or_null "rank" anime /\
  popularity info = field_or_null "popularity" anime /\
  members info = field_or_null "members" anime /\
  favorites info = field_or_null "favorites" anime.

(** An optional list field: absent, or a list of well-formed entries. *)
Definition wf_list_field (wf : json -> bool) (field : option json) : bool :=
  match field with
  | None => true
  | Some (JArr l) => forallb wf l
  | Some _ => false
  end.

Definition wf_item (a : json) : bool :=
  match a with
  | JObj d =>
      wf_list_field wf_title_variant (lookup "titles" d) &&
      wf_list_field wf_genre (lookup "genres" d)
  | _ => false
  end.

Definition wf_page (v : json) : bool :=
  match v with
  | JObj d => wf_list_field wf_item (lookup "data" d)
  | _ => false
  end.

(** The items of a page whose [data] entry is a list. *)
Definition page_items (v : json) : list json :=
  match field_or_null "data" v with
  | JArr l => l
  | _ => []
  end.

(** A page the fetcher can digest: well formed and of at most 25 items,
    the page size the numbering assumes. *)
Definition page_ok (v : json) : bool :=
  wf_page v && (List.length (page_items v) <=? 25)%nat.

(** ** Example data *)




(** A page with one item whose [genres] field is null. *)
Definition page_with_null_genres : json :=
  JObj [("data", JArr [JObj [("mal_id", JInt 5114);
                             ("title", JStr "A");
                             ("genres", JNull)]])].

(** A page with one item whose only genre tag has no [name]. *)
Definition page_with_nameless_genre : json :=
  JObj [("data", JArr [JObj [("title", JStr "A");
                             ("genres", JArr [JObj [("mal_id", JInt 1)]])]])].

(** A page with one item that carries the source's own identifier. *)
Definition page_with_one_item : json :=
  JObj [("data", JArr [JObj [("mal_id", JInt 5114); ("title", JStr "A")]])].

(** An item as the API sends it, and a full page of 25 of them. *)
Definition sample_item (mal_id : Z) : json :=
  JObj [("mal_id", JInt mal_id);
        ("titles", JArr [JObj [("type", JStr "Default"); ("title", JStr "T")]]);
        ("title", JStr "T");
        ("score", JFloat 8.5%float);
        ("scored_by", JInt 1000);
        ("rank", JNull);
        ("genres", JArr [JObj [("mal_id", JInt 1); ("name", JStr "Action")]])].

Definition full_page (first_mal_id : Z) : json :=
  JObj [("pagination", JObj [("has_next_page", JBool true)]);
        ("data", JArr (map sample_item (py_range first_mal_id (first_mal_id + 25))))].

Definition empty_page : json := JObj [("data", JArr [])].

(** Scripted networks: the listed responses in order, then [otherwise]
    for ever. *)
Definition script (l : list response) (otherwise : response) : network :=
  fun n => nth n l otherwise.

Definition ok_reply (data : json) : response := Reply 200 (Some data).

(** Rate limited twice, then served. *)
Definition net_429_429_ok : network :=
  script [Reply 429 None; Reply 429 None; ok_reply (full_page 1)] ConnectionFailed.

(** Pages 1 and 3 are served at once; page 2 meets a 429, a timeout and a
    503. *)
Definition net_page2_exhausted : network :=
  script [ok_reply (full_page 1);
          Reply 429 None; ConnectionFailed; Reply 503 None;
          ok_reply (full_page 51)] ConnectionFailed.

(** The same run with page 2 served, but empty. *)
Definition net_page2_empty : network :=
  script [ok_reply (full_page 1);
          ok_reply empty_page;
          ok_reply (full_page 51)] ConnectionFailed.

(** A server that answers 200 with an item whose [genres] is null. *)
Definition net_null_genres : network :=
  script [ok_reply page_with_null_genres] ConnectionFailed.

(** A server that is down, and one that always answers 429. *)
Definition net_down : network := fun _ => ConnectionFailed.

Definition net_rate_limiting : network := fun _ => Reply 429 None.

(** The closing events of an iteration: the verdict on the page and the
    pause before the next one. *)
Definition verdict (end_page : Z) (delay : seconds) (page : Z)
  (page_data : option (list anime_info)) : list event :=
  Print (if truthy page_data
         then MsgFound (List.length (list_of page_data))
         else MsgPageFailed page) ::
  (if page <? end_page then [Sleep delay] else []).

(** ** Comparing runs *)

(** Two networks that answer alike from request [nA] of the one and
    request [nB] of the other on. *)
Definition agree (netA : network) (nA : nat) (netB : network) (nB : nat)
  : Prop :=
  forall i, netA (nA + i)%nat = netB (nB + i)%nat.

(** Two runs, started at [nA] and [nB], with the same value, the same
    events and the same number of requests. *)
Definition same_outcome {A} (rA rB : run A) (nA nB : nat) : Prop :=
  value rA = value rB /\ trace rA = trace rB /\
  exists k, sent rA = (nA + k)%nat /\ sent rB = (nB + k)%nat.

(** The records of the pages that return a result, in page order: what
    the accumulator of a run over [pages] has to hold after the last
    page. *)
Fixpoint collected (net : network) (pages : list Z) (n : nat)
  : list anime_info :=
  match pages with
  | [] => []
  | page :: rest =>
      let r := scrape_page net page 3 n in
      match value r with
      | Ok (Some recs) => recs
      | _ => []
      end ++ collected net rest (sent r)
  end.

(** ** Further observations *)

(** A decoded value that is neither text nor a container. *)
Definition is_scalar (v : json) : bool :=
  match v with
  | JNull | JBool _ | JInt _ | JFloat _ => true
  | _ => false
  end.

(** The seconds of backoff in a trace: the [int] sleeps. *)
Fixpoint backoff_total (evs : list event) : Z :=
  match evs with
  | [] => 0
  | Sleep (IntSecs n) :: rest => n + backoff_total rest
  | _ :: rest => backoff_total rest
  end.

(** The [float] sleeps of a trace: the pauses between pages when the
    delay is a [float]. *)
Fixpoint pauses (evs : list event) : list float :=
  match evs with
  | [] => []
  | Sleep (FloatSecs x) :: rest => x :: pauses rest
  | _ :: rest => pauses rest
  end.

(** ** The sample display *)

(** The lines of [display_sample_data], by the position of their [print];
    a line carries the values its f-string interpolates.  [SampleTitle
    shown true] is the line that ends in ["..."]. *)
Inductive sample_line : Type :=
| SampleHeader (sample_size : Z)
| SampleRule
| SampleNumber (number : Z)
| SampleId (id : Z)
| SampleTitle (shown : json) (ellipsis : bool)
| SampleScore (score : json)
| SampleGenres (genres : string).

(** [l[:stop]]: a negative [stop] counts from the end. *)
Definition py_slice_to {A} (stop : Z) (l : list A) : list A :=
  if stop <? 0
  then firstn (Z.to_nat (Z.of_nat (List.length l) + stop)) l
  else firstn (Z.to_nat stop) l.

(** [len(v)]: text, lists and dicts have a length; the length of text is
    its number of characters. *)
Definition py_len (v : json) : result Z :=
  match v with
  | JStr s => Ok (Z.of_nat (List.length (code_points s)))
  | JArr l => Ok (Z.of_nat (List.length l))
  | JObj d => Ok (Z.of_nat (List.length d))
  | _ => Raise TypeError
  end.

(** [v[:n]]: text and lists can be sliced, text by characters; a dict
    cannot (a [TypeError] for the unhashable slice, up to Python 3.11). *)
Definition py_prefix (n : nat) (v : json) : result json :=
  match v with
  | JStr s => Ok (JStr (text_of (firstn n (code_points s))))
  | JArr l => Ok (JArr (firstn n l))
  | _ => Raise TypeError
  end.

(** The title line of line 132: the condition [len(anime['title']) > 60]
    is evaluated first, then the chosen f-string. *)
Definition title_line (t : json) : result sample_line :=
  (n <- py_len t ;;
   if 60 <? n
   then shown <- py_prefix 60 t ;; Ok (SampleTitle shown true)
   else Ok (SampleTitle t false))%result.

(** What a console program leaves: how it ended and what it printed. *)
Definition console (L : Type) : Type := (result unit * list L)%type.

(** The loop of [display_sample_data] from sample number [i + 1] on; the
    records are those [scrape_range] returns, so every key is there. *)
Fixpoint display_samples (i : Z) (samples : list anime_info)
  : console sample_line :=
  match samples with
  | [] => (Ok tt, [])
  | anime :: rest =>
      match title_line (title anime) with
      | Ok line =>
          let (v, out) := display_samples (i + 1) rest in
          (v, SampleNumber (i + 1) :: SampleId (reset_id anime) :: line ::
              SampleScore (score anime) :: SampleGenres (genres anime) :: out)
      | Raise e =>
          (Raise e, [SampleNumber (i + 1); SampleId (reset_id anime)])
      end
  end.

Definition display_sample_data (data : list anime_info) (sample_size : Z)
  : console sample_line :=
  let (v, out) := display_samples 0 (py_slice_to sample_size data) in
  (v, SampleHeader sample_size :: SampleRule :: out).

(** ** The main function *)

(** The lines [main] and the two savers print, by the position of their
    [print]. *)
Inductive main_message : Type :=
| MainBanner
| MainRule
| MainPages (start_page end_page : Z)
| MainRuleAfter
| MainCompleted
| MainTotal (count : nat)
| MainElapsed (elapsed : float)
| MainCsvSaved (filename : string)
| MainJsonSaved (filename : string)
| MainNoData.

(** What [main] does, in order: the events of the scraper, the lines of
    [main] and of the savers, the calls of [os.makedirs], [save_to_csv]
    and [save_to_json] with their arguments, and the lines of the sample
    display. *)
Inductive main_event : Type :=
| Scraping (e : event)
| Say (m : main_message)
| MakeDirs (path : string)
| SaveCsv (filename : string) (data : list anime_info)
| SaveJson (filename : string) (data : list anime_info)
| Show (l : sample_line).

(** The outside of the savers.  Given its arguments, [os.makedirs(path,
    exist_ok=True)] returns or raises (an [OSError]), and so does the
    body of the [with open(filename, 'w', encoding='utf-8')] block of
    each saver: [open] raises an [OSError] when the file system refuses,
    and the writing raises [UnicodeEncodeError] on text that has no UTF-8
    encoding (an unpaired surrogate of a decoded body). *)
Record file_system : Type := {
  makedirs : string -> result unit;
  write_csv : string -> list anime_info -> result unit;
  write_json : string -> list anime_info -> result unit
}.

(** Statements in sequence: the second runs when the first returned. *)
Definition and_then {L} (a b : console L) : console L :=
  match fst a with
  | Ok _ => (fst b, snd a ++ snd b)
  | Raise e => (Raise e, snd a)
  end.

Definition save_to_csv (fs : file_system) (data : list anime_info)
  (filename : string) : console main_event :=
  match write_csv fs filename data with
  | Ok _ => (Ok tt, [SaveCsv filename data; Say (MainCsvSaved filename)])
  | Raise e => (Raise e, [SaveCsv filename data])
  end.

Definition save_to_json (fs : file_system) (data : list anime_info)
  (filename : string) : console main_event :=
  match write_json fs filename data with
  | Ok _ => (Ok tt, [SaveJson filename data; Say (MainJsonSaved filename)])
  | Raise e => (Raise e, [SaveJson filename data])
  end.

Definition START_PAGE : Z := 1.
Definition END_PAGE : Z := 1180.

(** The branch [if all_anime_data:] of [main]. *)
Definition main_with_data (fs : file_system) (all_anime_data : list anime_info)
  (elapsed_time : float) (timestamp : string) : console main_event :=
  let csv_filename :=
    ("output/anime_list_" ++ timestamp ++ ".csv")%string in
  let json_filename :=
    ("output/anime_list_" ++ timestamp ++ ".json")%string in
  and_then (Ok tt, [Say MainRuleAfter; Say MainCompleted;
                    Say (MainTotal (List.length all_anime_data));
                    Say (MainElapsed elapsed_time)])
 (and_then (makedirs fs "output", [MakeDirs "output"])
 (and_then (save_to_csv fs all_anime_data csv_filename)
 (and_then (save_to_json fs all_anime_data json_filename)
           (fst (display_sample_data all_anime_data 3),
            map Show (snd (display_sample_data all_anime_data 3)))))).

(** [main], given the file system, the network, the two readings of
    [time.time()] and the text [datetime.now().strftime("%Y%m%d_%H%M%S")]
    returns.  The scraper is new, so no request has been sent. *)
Definition main (fs : file_system) (net : network) (start_time end_time : float)
  (timestamp : string) : console main_event :=
  let r := scrape_range net START_PAGE END_PAGE DELAY_BETWEEN_REQUESTS 0%nat in
  let opening :=
    Say MainBanner :: Say MainRule :: Say (MainPages START_PAGE END_PAGE) ::
    map Scraping (trace r) in
  match value r with
  | Raise e => (Raise e, opening)
  | Ok [] => (Ok tt, opening ++ [Say MainNoData])
  | Ok all_anime_data =>
      let rest :=
        main_with_data fs all_anime_data (end_time - start_time)%float
          timestamp in
      (fst rest, opening ++ snd rest)
  end.

(** The calls of a run of [main] on the file system, in order. *)
Fixpoint saves (evs : list main_event) : list main_event :=
  match evs with
  | [] => []
  | (MakeDirs _ | SaveCsv _ _ | SaveJson _ _) as e :: rest => e :: saves rest
  | _ :: rest => saves rest
  end.

(** A record with text for a title. *)
Definition has_text_title (info : anime_info) : bool :=
  match title info with
  | JStr _ => true
  | _ => false
  end.

(** A page whose only item has no title at all, and a server that serves
    it for page 1 and is down afterwards. *)
Definition page_with_untitled_item : json :=
  JObj [("data", JArr [JObj [("mal_id", JInt 1); ("score", JFloat 7.5%float)]])].

Definition net_untitled_then_down : network :=
  script [ok_reply page_with_untitled_item] ConnectionFailed.

Definition net_page1_then_down : network :=
  script [ok_reply (full_page 1)] ConnectionFailed.

(** Further shapes and pages. *)
Definition is_text (v : json) : bool :=
  match v with
  | JStr _ => true
  | _ => false
  end.

Definition has_name (g : json) : bool :=
  match g with
  | JObj dg => match lookup "name" dg with Some _ => true | None => false end
  | _ => false
  end.

(** A page whose second item has a null [genres]. *)
Definition page_with_bad_second_item : list (string * json) :=
  [("data", JArr ([sample_item 1] ++ JObj [("genres", JNull)] :: [sample_item 3]))].

(** A page of 26 items. *)
Definition oversized_page : json :=
  JObj [("data", JArr (map sample_item (py_range 1 27)))].

(** Page 2 is served with an item whose [genres] is null. *)
Definition net_page2_malformed : network :=
  script [ok_reply (full_page 1);
          ok_reply page_with_null_genres;
          ok_reply (full_page 51)] ConnectionFailed.



(** A title of at most 60 characters of text. *)
Definition short_text (v : json) : bool :=
  match v with
  | JStr s => (List.length (code_points s) <=? 60)%nat
  | _ => false
  end.

(** Bytes that all continue a character, and a byte with its
    continuation bytes. *)
Fixpoint all_continuation (s : string) : bool :=
  match s with
  | EmptyString => true
  | String c rest => is_continuation c && all_continuation rest
  end.

Definition is_character (p : string) : bool :=
  match p with
  | String _ rest => all_continuation rest
  | EmptyString => false
  end.

(** The pages [main] requested, one entry per request. *)
Fixpoint main_requests (evs : list main_event) : list Z :=
  match evs with
  | [] => []
  | Scraping (Get page) :: rest => page :: main_requests rest
  | _ :: rest => main_requests rest
  end.

(** A server that answers 302 with a decodable body. *)
Definition net_redirect : network :=
  script [Reply 302 (Some (full_page 1))] ConnectionFailed.

(** A 503, then a 200 whose body holds an integer over the digit limit:
    [response.json()] raises [ValueError]. *)
Definition net_huge_integer : network :=
  script [Reply 503 None; ReplyRefused 200 ValueError] ConnectionFailed.

(** Page 2 is answered with a body nested too deep for the decoder. *)
Definition net_page2_unreadable : network :=
  script [ok_reply (full_page 1);
          ReplyRefused 200 RecursionError;
          ok_reply (full_page 51)] ConnectionFailed.

(** A file system that accepts everything, one that is read-only, and
    writers that refuse the text of the data. *)
Definition fs_ok : file_system :=
  {| makedirs := fun _ => Ok tt;
     write_csv := fun _ _ => Ok tt;
     write_json := fun _ _ => Ok tt |}.

Definition fs_read_only : file_system :=
  {| makedirs := fun _ => Raise OSError;
     write_csv := fun _ _ => Raise OSError;
     write_json := fun _ _ => Raise OSError |}.

Definition fs_not_encodable : file_system :=
  {| makedirs := fun _ => Ok tt;
     write_csv := fun _ _ => Raise UnicodeEncodeError;
     write_json := fun _ _ => Raise UnicodeEncodeError |}.

(** A file system on which only the JSON file cannot be opened. *)
Definition fs_json_refused : file_system :=
  {| makedirs := fun _ => Ok tt;
     write_csv := fun _ _ => Ok tt;
     write_json := fun _ _ => Raise OSError |}.

(** A title of 28 Japanese characters (84 bytes of UTF-8) and one of 61
    accented letters (122 bytes). *)
Definition japanese_title : string :=
  text_of
    (repeat (String (ascii_of_nat 227)
               (String (ascii_of_nat 129) (String (ascii_of_nat 130) EmptyString)))
            28).

Definition accented_title : string :=
  text_of
    (repeat (String (ascii_of_nat 195) (String (ascii_of_nat 169) EmptyString)) 61).


(** * Properties *)

(** ** Text *)

Lemma code_points_step c s :
  code_points (String c s) =
    match code_points s with
    | p :: ps =>
        if continues s then String c p :: ps
        else String c EmptyString :: p :: ps
    | [] => [String c EmptyString]
    end.
Proof. reflexivity. Qed.

Lemma code_points_cons c s :
  exists t ps, code_points (String c s) = String c t :: ps.
Proof.
  cbn [code_points].
  destruct (code_points s) as [| p ps]; [eauto |].
  destruct (continues s); eauto.
Qed.

(** The characters of a text are bytes with their continuation bytes, and
    all but the first start with a byte that is no continuation. *)
Lemma code_points_characters s :
  Forall (fun p => is_character p = true) (code_points s) /\
  Forall (fun p => continues p = false) (tl (code_points s)).
Proof.
  induction s as [| c s [IHc IHt]]; [split; constructor |].
  cbn [code_points].
  destruct (code_points s) as [| p ps] eqn:E.
  - split; repeat constructor.
  - destruct (continues s) eqn:Hs.
    + split; [| exact IHt].
      inversion IHc as [| ? ? Hp Hps]; subst.
      constructor; [| exact Hps].
      destruct s as [| c' s']; [discriminate Hs |].
      destruct (code_points_cons c' s') as (t & ps' & E').
      rewrite E' in E. injection E as <- <-.
      simpl in *. rewrite Hs, Hp. reflexivity.
    + split; [constructor; [reflexivity | exact IHc] |].
      cbn [tl]. constructor; [| exact IHt].
      destruct s as [| c' s']; [discriminate E |].
      destruct (code_points_cons c' s') as (t & ps' & E').
      rewrite E' in E. injection E as <- <-. exact Hs.
Qed.

Lemma code_points_of_character c t rest :
  all_continuation t = true ->
  (code_points rest = [] \/ continues rest = false) ->
  code_points (String c (t ++ rest)) = String c t :: code_points rest.
Proof.
  revert c. induction t as [| c' t IH]; intros c Ht Hrest.
  - cbn [String.append code_points].
    destruct Hrest as [-> | ->]; [reflexivity |].
    destruct (code_points rest); reflexivity.
  - simpl in Ht. apply andb_true_iff in Ht. destruct Ht as [Hc' Ht].
    change (String c (String c' t ++ rest))
      with (String c (String c' (t ++ rest))).
    rewrite (code_points_step c (String c' (t ++ rest))).
    rewrite (IH c' Ht Hrest). cbn [continues]. rewrite Hc'. reflexivity.
Qed.

(** Characters put together are read back as they were. *)
Lemma code_points_text_of ps :
  Forall (fun p => is_character p = true) ps ->
  Forall (fun p => continues p = false) (tl ps) ->
  code_points (text_of ps) = ps.
Proof.
  induction ps as [| p ps IH]; intros Hc Ht; [reflexivity |].
  inversion Hc as [| ? ? Hp Hps]; subst.
  destruct p as [| c t]; [discriminate Hp |].
  cbn [text_of fold_right]. fold (text_of ps).
  change (String c t ++ text_of ps)%string with (String c (t ++ text_of ps)).
  cbn [tl] in Ht.
  rewrite code_points_of_character.
  - rewrite IH; [reflexivity | exact Hps |].
    destruct ps; [constructor | inversion Ht; assumption].
  - exact Hp.
  - destruct ps as [| q qs]; [left; reflexivity | right].
    inversion Ht as [| ? ? Hq _]; subst.
    inversion Hps as [| ? ? Hcq _]; subst.
    destruct q as [| cq tq]; [discriminate Hcq |]. exact Hq.
Qed.

Lemma forall_firstn {A} (P : A -> Prop) n :
  forall l, Forall P l -> Forall P (firstn n l).
Proof.
  induction n as [| n IH]; intros l H; [constructor |].
  destruct H as [| x l Hx Hl]; [constructor |].
  cbn [firstn]. constructor; [exact Hx | apply IH, Hl].
Qed.

Lemma forall_tl_firstn {A} (P : A -> Prop) n l :
  Forall P (tl l) -> Forall P (tl (firstn n l)).
Proof.
  destruct n as [| n]; [constructor |].
  destruct l as [| x l]; [constructor |]. cbn [firstn tl].
  apply forall_firstn.
Qed.

(** The first [n] characters of a text are its characters up to the
    [n]-th. *)
Lemma code_points_prefix n s :
  code_points (text_of (firstn n (code_points s))) = firstn n (code_points s).
Proof.
  destruct (code_points_characters s) as [Hc Ht].
  apply code_points_text_of.
  - apply forall_firstn, Hc.
  - apply forall_tl_firstn, Ht.
Qed.

(** The text of the characters of a text is that text. *)
Lemma text_of_code_points s : text_of (code_points s) = s.
Proof.
  induction s as [| c s IH]; [reflexivity |].
  cbn [code_points].
  destruct (code_points s) as [| p ps] eqn:E.
  - destruct s as [| c' s']; [reflexivity |].
    destruct (code_points_cons c' s') as (t & ps' & E').
    rewrite E' in E. discriminate E.
  - destruct (continues s); cbn [text_of fold_right] in *;
      rewrite <- IH; reflexivity.
Qed.

(** ** Results *)

Lemma rbind_ok_inv {A B} (r : result A) (k : A -> result B) (b : B) :
  rbind r k = Ok b -> exists a, r = Ok a /\ k a = Ok b.
Proof.
  destruct r as [a | e]; simpl; intro H.
  - exists a. split; [reflexivity | exact H].
  - discriminate H.
Qed.

Ltac rbind_inv H :=
  let a := fresh "a" in
  let Ha := fresh "Ha" in
  apply rbind_ok_inv in H; destruct H as (a & Ha & H).

(** ** The record extractor *)

Lemma extract_item_reset_id page index anime info :
  extract_item page index anime = Ok info ->
  reset_id info = (page - 1) * 25 + index + 1.
Proof.
  unfold extract_item. intro H.
  do 8 rbind_inv H.
  injection H as <-. reflexivity.
Qed.

Lemma extract_item_fields page index anime info :
  extract_item page index anime = Ok info ->
  default_title anime = Ok (title info) /\
  genres_string anime = Ok (genres info) /\
  score info = field_or_null "score" anime /\
  scored_by info = field_or_null "scored_by" anime /\
  rank info = field_or_null "rank" anime /\
  popularity info = field_or_null "popularity" anime /\
  members info = field_or_null "members" anime /\
  favorites info = field_or_null "favorites" anime.
Proof.
  unfold extract_item. intro H.
  do 8 rbind_inv H.
  injection H as <-. simpl.
  destruct anime; try discriminate.
  unfold py_get in *. simpl.
  repeat match goal with
         | E : Ok _ = Ok _ |- _ => injection E as <-
         end.
  repeat split; assumption || reflexivity.
Qed.

Lemma extract_items_length page index items recs :
  extract_items page index items = Ok recs ->
  List.length recs = List.length items.
Proof.
  revert index recs.
  induction items as [| anime rest IH]; simpl; intros index recs H.
  - injection H as <-. reflexivity.
  - do 2 rbind_inv H. injection H as <-. simpl.
    f_equal. eapply IH. eassumption.
Qed.

Lemma extract_items_nth page index items recs :
  extract_items page index items = Ok recs ->
  forall i info, nth_error recs i = Some info ->
  exists anime, nth_error items i = Some anime /\
                extract_item page (index + Z.of_nat i) anime = Ok info.
Proof.
  revert index recs.
  induction items as [| anime rest IH]; simpl; intros index recs H i info Hi.
  - injection H as <-. destruct i; discriminate Hi.
  - do 2 rbind_inv H. injection H as <-.
    destruct i as [| i]; simpl in Hi.
    + injection Hi as <-. exists anime. split; [reflexivity |].
      replace (index + Z.of_nat 0) with index by lia. assumption.
    + destruct (IH _ _ Ha0 _ _ Hi) as (x & Hx & Hex).
      exists x. split; [exact Hx |].
      replace (index + Z.of_nat (S i)) with (index + 1 + Z.of_nat i) by lia.
      exact Hex.
Qed.

Lemma extract_data_inv api_response page recs :
  _extract_anime_data api_response page = Ok recs ->
  exists d items,
    api_response = JObj d /\
    py_iter (match lookup "data" d with Some x => x | None => JArr [] end)
      = Ok items /\
    extract_items page 0 items = Ok recs.
Proof.
  unfold _extract_anime_data. intro H.
  do 2 rbind_inv H.
  destruct api_response; try discriminate.
  simpl in Ha. injection Ha as <-.
  eauto.
Qed.

Lemma extract_data_nth_id api_response page recs :
  _extract_anime_data api_response page = Ok recs ->
  forall i info, nth_error recs i = Some info ->
    reset_id info = (page - 1) * 25 + Z.of_nat i + 1.
Proof.
  intros H i info Hi.
  destruct (extract_data_inv _ _ _ H) as (d & items & _ & _ & Hitems).
  destruct (extract_items_nth _ _ _ _ Hitems _ _ Hi) as (anime & _ & Hex).
  apply extract_item_reset_id in Hex. lia.
Qed.

(** C3 (amended): every record of a page gets
    [reset_id = (page - 1) * 25 + position + 1], where [position] is the
    zero-based position of its item in the page; the value depends on the
    page number and the position only, whatever the items contain. *)
Theorem reset_id_formula api_response page recs :
  _extract_anime_data api_response page = Ok recs ->
  forall i info, nth_error recs i = Some info ->
    reset_id info = (page - 1) * 25 + Z.of_nat i + 1.
Proof. exact (extract_data_nth_id api_response page recs). Qed.

Lemma reset_id_formula_witness :
  exists info,
    _extract_anime_data page_with_one_item 1 = Ok [info] /\
    reset_id info = (1 - 1) * 25 + Z.of_nat 0 + 1.
Proof.
  eexists. split.
  - reflexivity.
  - exact (reset_id_formula page_with_one_item 1 _ eq_refl 0%nat _ eq_refl).
Defined.

(** C3 as stated fails: the only item of page 1 sits at zero-based
    position 0 and gets identifier 1, not [(1 - 1) * 25 + 0]. *)
Lemma reset_id_not_zero_based :
  exists info,
    _extract_anime_data page_with_one_item 1 = Ok [info] /\
    nth_error [info] 0 = Some info /\
    reset_id info <> (1 - 1) * 25 + Z.of_nat 0.
Proof.
  eexists. split; [reflexivity |]. split; [reflexivity |].
  simpl. discriminate.
Qed.

(** *** Titles *)





(** *** Genres *)


Lemma str_items_strings names : str_items (map JStr names) = Ok names.
Proof.
  induction names as [| n rest IH]; simpl.
  - reflexivity.
  - rewrite IH. reflexivity.
Qed.




(** *** Which pages the extractor accepts *)

Lemma first_default_wf ts fallback :
  forallb wf_title_variant ts = true ->
  exists v, first_default ts fallback = Ok v.
Proof.
  induction ts as [| t rest IH]; simpl; intro H.
  - eauto.
  - apply andb_true_iff in H. destruct H as [Ht Hrest].
    destruct t; try discriminate Ht.
    unfold wf_title_variant, is_default in Ht. simpl in *.
    destruct (py_eq_str _ "Default").
    + destruct (lookup "title" fields); [eauto | discriminate Ht].
    + apply IH, Hrest.
Qed.

Lemma genre_names_wf gs :
  forallb wf_genre gs = true ->
  exists names, genre_names gs = Ok (map JStr names).
Proof.
  induction gs as [| g rest IH]; simpl; intro H.
  - exists []. reflexivity.
  - apply andb_true_iff in H. destruct H as [Hg Hrest].
    destruct (IH Hrest) as (names & E).
    destruct g; try discriminate Hg. simpl in *.
    destruct (lookup "name" fields) as [[] |]; try discriminate Hg.
    exists (s :: names). simpl. rewrite E. reflexivity.
Qed.

Lemma wf_list_field_iter wf field :
  wf_list_field wf field = true ->
  exists l, match field with Some x => x | None => JArr [] end = JArr l /\
            forallb wf l = true.
Proof.
  destruct field as [[] |]; simpl; intro H; try discriminate H.
  - eauto.
  - exists []. split; reflexivity.
Qed.

Lemma extract_item_wf page index anime :
  wf_item anime = true ->
  exists info, extract_item page index anime = Ok info.
Proof.
  intro H. destruct anime; try discriminate H. simpl in H.
  apply andb_true_iff in H. destruct H as [Ht Hg].
  apply wf_list_field_iter in Ht. destruct Ht as (ts & Ets & Hts).
  apply wf_list_field_iter in Hg. destruct Hg as (gs & Egs & Hgs).
  destruct (first_default_wf ts (field_or_null "title" (JObj fields)) Hts)
    as (t & Et).
  destruct (genre_names_wf gs Hgs) as (names & En).
  unfold extract_item, default_title, genres_string. simpl.
  rewrite Ets, Egs. simpl. simpl in Et. rewrite Et. simpl.
  rewrite En. simpl. unfold py_join. rewrite str_items_strings. simpl.
  eauto.
Qed.

Lemma extract_items_wf page index items :
  forallb wf_item items = true ->
  exists recs, extract_items page index items = Ok recs.
Proof.
  revert index. induction items as [| anime rest IH]; simpl; intros index H.
  - eauto.
  - apply andb_true_iff in H. destruct H as [Ha Hrest].
    destruct (extract_item_wf page index anime Ha) as (info & ->).
    destruct (IH (index + 1) Hrest) as (recs & ->).
    simpl. eauto.
Qed.

Lemma extract_data_wf api_response page :
  wf_page api_response = true ->
  exists recs,
    _extract_anime_data api_response page = Ok recs /\
    extract_items page 0 (page_items api_response) = Ok recs.
Proof.
  intro H. destruct api_response; try discriminate H. simpl in H.
  apply wf_list_field_iter in H. destruct H as (items & E & Hitems).
  destruct (extract_items_wf page 0 items Hitems) as (recs & Hrecs).
  exists recs. unfold _extract_anime_data, page_items. simpl.
  rewrite E. simpl. split; [exact Hrecs |].
  destruct (lookup "data" fields); simpl in *; subst; simpl; try exact Hrecs.
  injection E as <-. exact Hrecs.
Qed.

Lemma extract_items_scalars page index items recs :
  extract_items page index items = Ok recs ->
  Forall2 scalars_of items recs.
Proof.
  revert index recs.
  induction items as [| anime rest IH]; simpl; intros index recs H.
  - injection H as <-. constructor.
  - do 2 rbind_inv H. injection H as <-. constructor.
    + apply extract_item_fields in Ha. unfold scalars_of. tauto.
    + eapply IH. eassumption.
Qed.

(** C4 (amended): on a page that is a mapping whose items, when present,
    are mappings with absent or well-formed [titles] and [genres] lists,
    extraction returns one record per item, and a scalar field the item
    lacks is null in the record; a mapping without the items key is an
    empty page; a container that is not a mapping raises. *)
Theorem extraction_of_well_formed_pages :
  (forall api_response page,
     wf_page api_response = true ->
     exists recs,
       _extract_anime_data api_response page = Ok recs /\
       Forall2 scalars_of (page_items api_response) recs) /\
  (forall d page,
     lookup "data" d = None -> _extract_anime_data (JObj d) page = Ok []) /\
  (forall v page,
     is_dict v = false -> _extract_anime_data v page = Raise AttributeError).
Proof.
  split; [| split].
  - intros api_response page H.
    destruct (extract_data_wf api_response page H) as (recs & E & Hitems).
    exists recs. split; [exact E |].
    eapply extract_items_scalars. eassumption.
  - intros d page H. unfold _extract_anime_data. simpl. rewrite H. reflexivity.
  - intros v page H. destruct v; try discriminate H; reflexivity.
Qed.

Lemma extraction_of_well_formed_pages_witness :
  exists recs,
    _extract_anime_data (full_page 1) 1 = Ok recs /\
    Forall2 scalars_of (page_items (full_page 1)) recs.
Proof.
  destruct extraction_of_well_formed_pages as [H _].
  exact (H (full_page 1) 1 eq_refl).
Defined.

(** C4 as stated fails: the page is a mapping with an items key, its only
    item has a null [genres] field, and extraction raises. *)
Lemma extraction_raises_on_null_genres :
  is_dict page_with_null_genres = true /\
  (exists items, lookup "data" [("data", JArr items)] = Some (JArr items) /\
                 page_with_null_genres = JObj [("data", JArr items)]) /\
  _extract_anime_data page_with_null_genres 1 = Raise TypeError.
Proof.
  split; [reflexivity |]. split; [| reflexivity].
  eexists. split; reflexivity.
Qed.

(** A genre tag without a name raises as well. *)
Example extraction_raises_on_nameless_genre :
  _extract_anime_data page_with_nameless_genre 1 = Raise (KeyError "name").
Proof. reflexivity. Qed.

(** ** One attempt of [scrape_page] *)

Lemma response_cases (r : response) :
  rate_limited r = true \/ request_error r = true \/
  (exists data, fetched r = Some data) \/ (exists e, refused r = Some e).
Proof.
  destruct r as [| status_code [data |] | status_code e]; simpl; auto.
  - destruct (status_code =? 429); simpl; auto.
    destruct (raises_for_status status_code); simpl; eauto.
  - destruct (status_code =? 429); simpl; auto.
    rewrite orb_true_r. auto.
  - destruct (status_code =? 429); simpl; auto.
    destruct (raises_for_status status_code); simpl; eauto 6.
Qed.

Lemma fetched_not_failed r data : fetched r = Some data -> failed r = false.
Proof.
  destruct r as [| status_code [body |] | status_code e]; simpl;
    try discriminate.
  unfold failed. simpl.
  destruct (status_code =? 429); simpl; try discriminate.
  destruct (raises_for_status status_code); simpl; try discriminate.
  reflexivity.
Qed.

Lemma refused_not_failed r e : refused r = Some e -> failed r = false.
Proof.
  destruct r as [| status_code body | status_code e']; simpl;
    try discriminate.
  unfold failed. simpl.
  destruct (status_code =? 429); simpl; try discriminate.
  destruct (raises_for_status status_code); simpl; try discriminate.
  reflexivity.
Qed.

Lemma script_never_refused l otherwise :
  Forall (fun r => refused r = None) l -> refused otherwise = None ->
  forall m, refused (script l otherwise m) = None.
Proof.
  unfold script. intros Hl Hd.
  induction Hl as [| r l Hr _ IH]; intro m; destruct m; simpl; auto.
Qed.

Lemma failed_not_refused r : failed r = true -> refused r = None.
Proof.
  intro H. destruct (refused r) as [e |] eqn:E; [| reflexivity].
  apply refused_not_failed in E. congruence.
Qed.

Lemma attempt_rate_limited net page max_retries attempt rest n :
  rate_limited (net n) = true ->
  scrape_attempts net page max_retries (attempt :: rest) n =
    let r := scrape_attempts net page max_retries rest (S n) in
    Run (value r) (sent r)
        (Get page :: Print (MsgRateLimited (2 ^ attempt)) ::
         Sleep (IntSecs (2 ^ attempt)) :: trace r).
Proof.
  intro H. simpl. unfold bind at 1. simpl.
  destruct (net n) as [| status_code body | status_code e]; simpl in H;
    [discriminate | |];
    rewrite H; unfold bind; simpl;
    destruct (value (scrape_attempts net page max_retries rest (S n)));
    reflexivity.
Qed.

Lemma attempt_request_error_retry net page max_retries attempt rest n :
  request_error (net n) = true ->
  attempt < max_retries - 1 ->
  scrape_attempts net page max_retries (attempt :: rest) n =
    let r := scrape_attempts net page max_retries rest (S n) in
    Run (value r) (sent r)
        (Get page :: Print (MsgAttemptFailed (attempt + 1) page) ::
         Sleep (IntSecs (2 ^ attempt)) :: trace r).
Proof.
  intros H Hlt. apply Z.ltb_lt in Hlt.
  simpl. unfold bind at 1. simpl.
  destruct (net n) as [| status_code body | status_code e]; simpl in H.
  - rewrite Hlt. unfold bind. simpl.
    destruct (value (scrape_attempts net page max_retries rest (S n)));
      reflexivity.
  - destruct (status_code =? 429); simpl in H; [discriminate |].
    destruct (raises_for_status status_code); simpl in H.
    + rewrite Hlt. unfold bind. simpl.
      destruct (value (scrape_attempts net page max_retries rest (S n)));
        reflexivity.
    + destruct body; [discriminate |].
      rewrite Hlt. unfold bind. simpl.
      destruct (value (scrape_attempts net page max_retries rest (S n)));
        reflexivity.
  - destruct (status_code =? 429); simpl in H; [discriminate |].
    destruct (raises_for_status status_code); simpl in H; [| discriminate].
    rewrite Hlt. unfold bind. simpl.
    destruct (value (scrape_attempts net page max_retries rest (S n)));
      reflexivity.
Qed.

Lemma attempt_request_error_final net page max_retries attempt rest n :
  request_error (net n) = true ->
  max_retries - 1 <= attempt ->
  scrape_attempts net page max_retries (attempt :: rest) n =
    Run (Ok None) (S n)
        [Get page; Print (MsgAttemptFailed (attempt + 1) page);
         Print (MsgGaveUp page max_retries)].
Proof.
  intros H Hge. apply Z.ltb_ge in Hge.
  simpl. unfold bind at 1. simpl.
  destruct (net n) as [| status_code body | status_code e]; simpl in H.
  - rewrite Hge. reflexivity.
  - destruct (status_code =? 429); simpl in H; [discriminate |].
    destruct (raises_for_status status_code); simpl in H.
    + rewrite Hge. reflexivity.
    + destruct body; [discriminate |].
      rewrite Hge. reflexivity.
  - destruct (status_code =? 429); simpl in H; [discriminate |].
    destruct (raises_for_status status_code); simpl in H; [| discriminate].
    rewrite Hge. reflexivity.
Qed.

Lemma attempt_fetched net page max_retries attempt rest n data :
  fetched (net n) = Some data ->
  scrape_attempts net page max_retries (attempt :: rest) n =
    Run (rbind (_extract_anime_data data page) (fun recs => Ok (Some recs)))
        (S n) [Get page].
Proof.
  intro H. simpl. unfold bind at 1. simpl.
  destruct (net n) as [| status_code [body |] | status_code e]; simpl in H;
    try discriminate.
  destruct (status_code =? 429); simpl in H; [discriminate |].
  destruct (raises_for_status status_code); simpl in H; [discriminate |].
  injection H as ->.
  unfold bind, lift, ret. simpl.
  destruct (_extract_anime_data data page); reflexivity.
Qed.

Lemma attempt_refused net page max_retries attempt rest n e :
  refused (net n) = Some e ->
  scrape_attempts net page max_retries (attempt :: rest) n =
    Run (Raise e) (S n) [Get page].
Proof.
  intro H. simpl. unfold bind at 1. simpl.
  destruct (net n) as [| status_code body | status_code e']; simpl in H;
    try discriminate.
  destruct (status_code =? 429); simpl in H; [discriminate |].
  destruct (raises_for_status status_code); simpl in H; [discriminate |].
  injection H as ->. reflexivity.
Qed.

(** ** Ranges *)

Lemma py_range_nil lo hi : hi <= lo -> py_range lo hi = [].
Proof.
  intro H. unfold py_range.
  replace (Z.to_nat (hi - lo)) with 0%nat by lia. reflexivity.
Qed.

Lemma py_range_cons lo hi :
  lo < hi -> py_range lo hi = lo :: py_range (lo + 1) hi.
Proof.
  intro H. unfold py_range.
  replace (Z.to_nat (hi - lo)) with (S (Z.to_nat (hi - (lo + 1)))) by lia.
  simpl. f_equal; [lia |].
  rewrite <- seq_shift, map_map.
  apply map_ext. intro i. lia.
Qed.

Lemma py_range_app lo mid hi :
  lo <= mid <= hi -> py_range lo hi = py_range lo mid ++ py_range mid hi.
Proof.
  intro H.
  remember (Z.to_nat (mid - lo)) as k eqn:Ek.
  revert lo H Ek. induction k as [| k IH]; intros lo H Ek.
  - assert (mid = lo) by lia. subst mid.
    rewrite (py_range_nil lo lo) by lia. reflexivity.
  - rewrite (py_range_cons lo hi), (py_range_cons lo mid) by lia.
    simpl. f_equal. apply IH; lia.
Qed.

Lemma in_py_range x lo hi : In x (py_range lo hi) <-> lo <= x < hi.
Proof.
  unfold py_range. rewrite in_map_iff. split.
  - intros (i & <- & Hi). apply in_seq in Hi. lia.
  - intro H. exists (Z.to_nat (x - lo)). split; [lia |].
    apply in_seq. lia.
Qed.

(** ** The retry loop *)

Section Attempts.

Variable net : network.
Variables page max_retries : Z.

Let attempts_from (attempt : Z) : io (option (list anime_info)) :=
  scrape_attempts net page max_retries (py_range attempt max_retries).

Lemma attempts_start_with_get l n :
  until_get (trace (scrape_attempts net page max_retries l n)) = [].
Proof.
  destruct l as [| attempt rest]; [reflexivity |].
  destruct (response_cases (net n)) as [H | [H | [(data & H) | (e & H)]]].
  - rewrite attempt_rate_limited by assumption. reflexivity.
  - destruct (Z_lt_le_dec attempt (max_retries - 1)).
    + rewrite attempt_request_error_retry by assumption. reflexivity.
    + rewrite attempt_request_error_final by assumption. reflexivity.
  - rewrite (attempt_fetched _ _ _ _ _ _ data) by assumption. reflexivity.
  - rewrite (attempt_refused _ _ _ _ _ _ e) by assumption. reflexivity.
Qed.

(** What follows a failed attempt, up to the next request. *)
Lemma attempt_events_failed j :
  forall attempt n,
    attempt + Z.of_nat j < max_retries ->
    (forall i, (i <= j)%nat -> failed (net (n + i)%nat) = true) ->
    attempt_events j (trace (attempts_from attempt n)) =
      let a := attempt + Z.of_nat j in
      if rate_limited (net (n + j)%nat)
      then [Print (MsgRateLimited (2 ^ a)); Sleep (IntSecs (2 ^ a))]
      else if a <? max_retries - 1
           then [Print (MsgAttemptFailed (a + 1) page); Sleep (IntSecs (2 ^ a))]
           else [Print (MsgAttemptFailed (a + 1) page);
                 Print (MsgGaveUp page max_retries)].
Proof.
  unfold attempts_from.
  induction j as [| j IH]; intros attempt n Hlt Hfail.
  - rewrite py_range_cons by lia.
    replace (attempt + Z.of_nat 0) with attempt by lia.
    pose proof (Hfail 0%nat (Nat.le_refl _)) as H0.
    rewrite Nat.add_0_r in *.
    unfold failed in H0. apply orb_true_iff in H0.
    cbv zeta.
    destruct (rate_limited (net n)) eqn:Hrl.
    + rewrite attempt_rate_limited by assumption. simpl.
      rewrite attempts_start_with_get. reflexivity.
    + destruct H0 as [H0 | H0]; [discriminate |].
      destruct (Z.ltb_spec attempt (max_retries - 1)).
      * rewrite attempt_request_error_retry by assumption. simpl.
        rewrite attempts_start_with_get. reflexivity.
      * rewrite attempt_request_error_final by assumption. reflexivity.
  - rewrite py_range_cons by lia.
    assert (Hrest : forall i, (i <= j)%nat -> failed (net (S n + i)%nat) = true).
    { intros i Hi. replace (S n + i)%nat with (n + S i)%nat by lia.
      apply Hfail. lia. }
    specialize (IH (attempt + 1) (S n) ltac:(lia) Hrest).
    replace (attempt + 1 + Z.of_nat j) with (attempt + Z.of_nat (S j)) in IH
      by lia.
    replace (S n + j)%nat with (n + S j)%nat in IH by lia.
    pose proof (Hfail 0%nat ltac:(lia)) as H0.
    rewrite Nat.add_0_r in H0.
    unfold failed in H0. apply orb_true_iff in H0.
    destruct H0 as [H0 | H0].
    + rewrite attempt_rate_limited by assumption. simpl. exact IH.
    + rewrite attempt_request_error_retry by (assumption || lia).
      simpl. exact IH.
Qed.

(** A page whose attempts all fail: no result, [max_retries] requests, all
    for this page. *)
Lemma attempts_all_failed k :
  forall attempt n,
    k = Z.to_nat (max_retries - attempt) ->
    (forall i, (i < k)%nat -> failed (net (n + i)%nat) = true) ->
    let r := attempts_from attempt n in
    value r = Ok None /\ sent r = (n + k)%nat /\
    requests (trace r) = repeat page k.
Proof.
  unfold attempts_from.
  induction k as [| k IH]; intros attempt n Hk Hfail; cbv zeta.
  - rewrite py_range_nil by lia. simpl. rewrite Nat.add_0_r. auto.
  - rewrite py_range_cons by lia.
    assert (Hrest : forall i, (i < k)%nat -> failed (net (S n + i)%nat) = true).
    { intros i Hi. replace (S n + i)%nat with (n + S i)%nat by lia.
      apply Hfail. lia. }
    pose proof (Hfail 0%nat ltac:(lia)) as H0.
    rewrite Nat.add_0_r in H0.
    unfold failed in H0. apply orb_true_iff in H0.
    destruct H0 as [H0 | H0].
    + rewrite attempt_rate_limited by assumption. simpl.
      destruct (IH (attempt + 1) (S n) ltac:(lia) Hrest) as (Hv & Hs & Hr).
      rewrite Hv, Hs, Hr. repeat split. lia.
    + destruct (Z_lt_le_dec attempt (max_retries - 1)).
      * rewrite attempt_request_error_retry by assumption. simpl.
        destruct (IH (attempt + 1) (S n) ltac:(lia) Hrest) as (Hv & Hs & Hr).
        rewrite Hv, Hs, Hr. repeat split. lia.
      * rewrite attempt_request_error_final by assumption. simpl.
        assert (k = 0%nat) by lia. subst k.
        repeat split. lia.
Qed.

(** A page served after [k] failed attempts. *)
Lemma attempts_fetched_after k :
  forall attempt n data,
    attempt + Z.of_nat k < max_retries ->
    (forall i, (i < k)%nat -> failed (net (n + i)%nat) = true) ->
    fetched (net (n + k)%nat) = Some data ->
    let r := attempts_from attempt n in
    value r = rbind (_extract_anime_data data page) (fun recs => Ok (Some recs)) /\
    sent r = (n + k + 1)%nat /\
    requests (trace r) = repeat page (k + 1) /\
    sleeps (trace r) =
      map (fun i => IntSecs (2 ^ (attempt + Z.of_nat i))) (seq 0 k).
Proof.
  unfold attempts_from.
  induction k as [| k IH]; intros attempt n data Hlt Hfail Hdata; cbv zeta.
  - rewrite py_range_cons by lia. rewrite Nat.add_0_r in Hdata.
    rewrite (attempt_fetched _ _ _ _ _ _ data) by assumption. simpl.
    repeat split. lia.
  - rewrite py_range_cons by lia.
    assert (Hrest : forall i, (i < k)%nat -> failed (net (S n + i)%nat) = true).
    { intros i Hi. replace (S n + i)%nat with (n + S i)%nat by lia.
      apply Hfail. lia. }
    replace (n + S k)%nat with (S n + k)%nat in Hdata by lia.
    destruct (IH (attempt + 1) (S n) data ltac:(lia) Hrest Hdata)
      as (Hv & Hs & Hr & Hsl).
    assert (Hmap : map (fun i => IntSecs (2 ^ (attempt + Z.of_nat i))) (seq 0 (S k))
                   = IntSecs (2 ^ attempt) ::
                     map (fun i => IntSecs (2 ^ (attempt + 1 + Z.of_nat i))) (seq 0 k)).
    { simpl. rewrite Z.add_0_r. f_equal.
      rewrite <- seq_shift, map_map. apply map_ext. intro i.
      do 2 f_equal. lia. }
    rewrite Hmap.
    pose proof (Hfail 0%nat ltac:(lia)) as H0.
    rewrite Nat.add_0_r in H0.
    unfold failed in H0. apply orb_true_iff in H0.
    destruct H0 as [H0 | H0].
    + rewrite attempt_rate_limited by assumption. simpl.
      rewrite Hv, Hs, Hr, Hsl. repeat split. lia.
    + rewrite attempt_request_error_retry by (assumption || lia). simpl.
      rewrite Hv, Hs, Hr, Hsl. repeat split. lia.
Qed.

End Attempts.

(** A page whose decoder raises after [k] failed attempts. *)
Lemma attempts_refused_after (net : network) page max_retries k :
  forall attempt n e,
    attempt + Z.of_nat k < max_retries ->
    (forall i, (i < k)%nat -> failed (net (n + i)%nat) = true) ->
    refused (net (n + k)%nat) = Some e ->
    let r := scrape_attempts net page max_retries
               (py_range attempt max_retries) n in
    value r = Raise e /\
    sent r = (n + k + 1)%nat /\
    requests (trace r) = repeat page (k + 1) /\
    exists pre, trace r = pre ++ [Get page].
Proof.
  induction k as [| k IH]; intros attempt n e Hlt Hfail He; cbv zeta.
  - rewrite py_range_cons by lia. rewrite Nat.add_0_r in He.
    rewrite (attempt_refused _ _ _ _ _ _ e) by assumption. simpl.
    split; [reflexivity |]. split; [lia |]. split; [reflexivity |].
    exists []. reflexivity.
  - rewrite py_range_cons by lia.
    assert (Hrest : forall i, (i < k)%nat -> failed (net (S n + i)%nat) = true).
    { intros i Hi. replace (S n + i)%nat with (n + S i)%nat by lia.
      apply Hfail. lia. }
    replace (n + S k)%nat with (S n + k)%nat in He by lia.
    destruct (IH (attempt + 1) (S n) e ltac:(lia) Hrest He)
      as (Hv & Hs & Hr & pre & Hpre).
    pose proof (Hfail 0%nat ltac:(lia)) as H0.
    rewrite Nat.add_0_r in H0.
    unfold failed in H0. apply orb_true_iff in H0.
    destruct H0 as [H0 | H0].
    + rewrite attempt_rate_limited by assumption. simpl.
      rewrite Hv, Hs, Hr, Hpre.
      split; [reflexivity |]. split; [lia |]. split; [reflexivity |].
      eexists (_ :: _ :: _ :: pre). reflexivity.
    + rewrite attempt_request_error_retry by (assumption || lia). simpl.
      rewrite Hv, Hs, Hr, Hpre.
      split; [reflexivity |]. split; [lia |]. split; [reflexivity |].
      eexists (_ :: _ :: _ :: pre). reflexivity.
Qed.

Lemma rate_limited_not_request_error r :
  rate_limited r = true -> request_error r = false.
Proof.
  destruct r as [| status_code body | status_code e]; simpl;
    [discriminate | |]; intros ->; reflexivity.
Qed.

Lemma failed_cases r :
  failed r = true ->
  rate_limited r = true /\ request_error r = false \/
  rate_limited r = false /\ request_error r = true.
Proof.
  unfold failed. intro H.
  destruct (rate_limited r) eqn:E.
  - left. split; [reflexivity |]. apply rate_limited_not_request_error, E.
  - right. split; [reflexivity | exact H].
Qed.

(** C1 (amended): with [max_retries = 3], a failed attempt [n], one
    that met a 429 or a request error (failed transport, 4xx or 5xx
    status, body that is not JSON), is followed by a sleep of [2 ^ n]
    whichever of the two it met, except that a request error on attempt 2
    ends the page with no result and no sleep; a page that meets 429
    twice and is then served sleeps 1 then 2 and returns the records of
    the served body. *)
Theorem scrape_page_backoff :
  (forall (net : network) page c n,
     (n < 3)%nat ->
     (forall i, (i <= n)%nat -> failed (net (c + i)%nat) = true) ->
     let r := scrape_page net page 3 c in
     if (n =? 2)%nat && request_error (net (c + n)%nat)
     then sleeps (attempt_events n (trace r)) = [] /\ value r = Ok None
     else sleeps (attempt_events n (trace r)) = [IntSecs (2 ^ Z.of_nat n)]) /\
  (forall (net : network) page c data recs,
     rate_limited (net c) = true ->
     rate_limited (net (c + 1)%nat) = true ->
     fetched (net (c + 2)%nat) = Some data ->
     _extract_anime_data data page = Ok recs ->
     let r := scrape_page net page 3 c in
     sleeps (trace r) = [IntSecs 1; IntSecs 2] /\ value r = Ok (Some recs)).
Proof.
  split.
  - intros net page c n Hn Hfail r. subst r. unfold scrape_page.
    rewrite (attempt_events_failed net page 3 n 0 c) by (lia || assumption).
    cbv zeta. rewrite Z.add_0_l.
    destruct (failed_cases _ (Hfail n (Nat.le_refl _))) as [[-> ->] | [-> ->]].
    + rewrite andb_false_r. reflexivity.
    + destruct (Nat.eqb_spec n 2) as [-> | Hne]; simpl.
      * split; [reflexivity |].
        apply (attempts_all_failed net page 3 3 0 c); [reflexivity |].
        intros i Hi. apply Hfail. lia.
      * destruct (Z.ltb_spec (Z.of_nat n) 2); [reflexivity | lia].
  - intros net page c data recs H0 H1 H2 Hrecs r. subst r. unfold scrape_page.
    assert (Hfail : forall i, (i < 2)%nat -> failed (net (c + i)%nat) = true).
    { intros i Hi. unfold failed.
      destruct i as [| [| i]]; [| | lia].
      - rewrite Nat.add_0_r, H0. reflexivity.
      - rewrite H1. reflexivity. }
    destruct (attempts_fetched_after net page 3 2 0 c data ltac:(lia) Hfail H2)
      as (Hv & _ & _ & Hs).
    rewrite Hv, Hs, Hrecs. split; reflexivity.
Qed.

Lemma scrape_page_backoff_witness :
  sleeps (attempt_events 0 (trace (scrape_page net_429_429_ok 1 3 0%nat)))
    = [IntSecs 1] /\
  sleeps (trace (scrape_page net_429_429_ok 1 3 0%nat)) = [IntSecs 1; IntSecs 2] /\
  option_map (map reset_id)
    (match value (scrape_page net_429_429_ok 1 3 0%nat) with
     | Ok v => v
     | Raise _ => None
     end) = Some (py_range 1 26).
Proof.
  destruct scrape_page_backoff as [Hgen Hex].
  split; [| split].
  - refine (Hgen net_429_429_ok 1 0%nat 0%nat _ _); [lia |].
    intros i Hi. replace i with 0%nat by lia. reflexivity.
  - refine (proj1 (Hex net_429_429_ok 1 0%nat (full_page 1) _
                       eq_refl eq_refl eq_refl eq_refl)).
  - rewrite (proj2 (Hex net_429_429_ok 1 0%nat (full_page 1) _
                        eq_refl eq_refl eq_refl eq_refl)).
    reflexivity.
Defined.

(** C1 as stated fails for the statuses that are neither 2xx nor 4xx or
    5xx: an attempt answered 302 with a decodable body is no failure for
    [scrape_page]; no sleep follows it, and its body is extracted at once. *)
Lemma redirect_status_is_not_retried :
  net_redirect 0%nat = Reply 302 (Some (full_page 1)) /\
  raises_for_status 302 = false /\
  failed (net_redirect 0%nat) = false /\
  sleeps (trace (scrape_page net_redirect 1 3 0%nat)) = [] /\
  requests (trace (scrape_page net_redirect 1 3 0%nat)) = [1] /\
  option_map (map reset_id)
    (match value (scrape_page net_redirect 1 3 0%nat) with
     | Ok v => v
     | Raise _ => None
     end) = Some (py_range 1 26).
Proof. repeat split. Qed.

(** The trace of a page whose attempts all fail ends with the events of
    the last attempt. *)
Lemma final_attempt_trace net page max_retries k :
  forall attempt n,
    Z.of_nat (S k) = max_retries - attempt ->
    (forall i, (i <= k)%nat -> failed (net (n + i)%nat) = true) ->
    exists pre,
      trace (scrape_attempts net page max_retries
               (py_range attempt max_retries) n) =
      pre ++ Get page ::
        (if rate_limited (net (n + k)%nat)
         then [Print (MsgRateLimited (2 ^ (max_retries - 1)));
               Sleep (IntSecs (2 ^ (max_retries - 1)))]
         else [Print (MsgAttemptFailed max_retries page);
               Print (MsgGaveUp page max_retries)]).
Proof.
  induction k as [| k IH]; intros attempt n Hk Hfail.
  - assert (attempt = max_retries - 1) by lia. subst attempt.
    rewrite py_range_cons by lia.
    rewrite (py_range_nil (max_retries - 1 + 1)) by lia.
    rewrite Nat.add_0_r.
    destruct (failed_cases _ (Hfail 0%nat (Nat.le_refl _))) as [[H H'] | [H H']];
      rewrite Nat.add_0_r in H, H'; rewrite H.
    + rewrite attempt_rate_limited by assumption. exists []. reflexivity.
    + rewrite attempt_request_error_final by (assumption || lia).
      exists []. simpl.
      replace (max_retries - 1 + 1) with max_retries by lia. reflexivity.
  - rewrite py_range_cons by lia.
    assert (Hrest : forall i, (i <= k)%nat -> failed (net (S n + i)%nat) = true).
    { intros i Hi. replace (S n + i)%nat with (n + S i)%nat by lia.
      apply Hfail. lia. }
    destruct (IH (attempt + 1) (S n) ltac:(lia) Hrest) as (pre & Hpre).
    replace (S n + k)%nat with (n + S k)%nat in Hpre by lia.
    destruct (failed_cases _ (Hfail 0%nat ltac:(lia))) as [[H _] | [_ H]];
      rewrite Nat.add_0_r in H.
    + rewrite attempt_rate_limited by assumption. simpl. rewrite Hpre.
      eexists (_ :: _ :: _ :: pre). reflexivity.
    + rewrite attempt_request_error_retry by (assumption || lia).
      simpl. rewrite Hpre.
      eexists (_ :: _ :: _ :: pre). reflexivity.
Qed.

(** C10: when the last permitted attempt of a page meets a 429,
    [scrape_page] still sleeps [2 ^ (max_retries - 1)] and only then
    returns no result; when it meets a request error instead, it returns
    no result with no sleep after the request. *)
Theorem final_attempt_rate_limited_sleeps (net : network) page max_retries c :
  1 <= max_retries ->
  let last := Z.to_nat (max_retries - 1) in
  (forall i, (i < last)%nat -> failed (net (c + i)%nat) = true) ->
  let r := scrape_page net page max_retries c in
  (rate_limited (net (c + last)%nat) = true ->
   value r = Ok None /\
   exists pre,
     trace r = pre ++ [Get page;
                       Print (MsgRateLimited (2 ^ (max_retries - 1)));
                       Sleep (IntSecs (2 ^ (max_retries - 1)))]) /\
  (request_error (net (c + last)%nat) = true ->
   value r = Ok None /\
   exists pre,
     trace r = pre ++ [Get page;
                       Print (MsgAttemptFailed max_retries page);
                       Print (MsgGaveUp page max_retries)]).
Proof.
  intros Hmr last Hfail r. subst r. unfold scrape_page.
  assert (Hall : forall final, failed (net (c + last)%nat) = final ->
                 final = true ->
                 forall i, (i <= last)%nat -> failed (net (c + i)%nat) = true).
  { intros final Hf -> i Hi.
    destruct (Nat.eq_dec i last) as [-> | Hne]; [exact Hf |].
    apply Hfail. lia. }
  split; intro H.
  - assert (Hf : failed (net (c + last)%nat) = true).
    { unfold failed. rewrite H. reflexivity. }
    pose proof (Hall _ Hf eq_refl) as Hle.
    split.
    + apply (attempts_all_failed net page max_retries (S last) 0 c);
        [subst last; lia |].
      intros i Hi. apply Hle. lia.
    + destruct (final_attempt_trace net page max_retries last 0 c
                  ltac:(subst last; lia) Hle) as (pre & Hpre).
      rewrite H in Hpre. eauto.
  - assert (Hf : failed (net (c + last)%nat) = true).
    { unfold failed. rewrite H. apply orb_true_r. }
    pose proof (Hall _ Hf eq_refl) as Hle.
    split.
    + apply (attempts_all_failed net page max_retries (S last) 0 c);
        [subst last; lia |].
      intros i Hi. apply Hle. lia.
    + destruct (final_attempt_trace net page max_retries last 0 c
                  ltac:(subst last; lia) Hle) as (pre & Hpre).
      destruct (failed_cases _ Hf) as [[_ E] | [E _]];
        [rewrite E in H; discriminate |].
      rewrite E in Hpre. eauto.
Qed.

Lemma final_attempt_rate_limited_sleeps_witness :
  (value (scrape_page net_rate_limiting 7 3 0%nat) = Ok None /\
   exists pre,
     trace (scrape_page net_rate_limiting 7 3 0%nat) =
     pre ++ [Get 7; Print (MsgRateLimited 4); Sleep (IntSecs 4)]) /\
  (value (scrape_page net_down 7 3 0%nat) = Ok None /\
   exists pre,
     trace (scrape_page net_down 7 3 0%nat) =
     pre ++ [Get 7; Print (MsgAttemptFailed 3 7); Print (MsgGaveUp 7 3)]).
Proof.
  split.
  - refine (proj1 (final_attempt_rate_limited_sleeps
                     net_rate_limiting 7 3 0%nat _ _) eq_refl).
    + lia.
    + intros i _. reflexivity.
  - refine (proj2 (final_attempt_rate_limited_sleeps
                     net_down 7 3 0%nat _ _) eq_refl).
    + lia.
    + intros i _. reflexivity.
Defined.

(** ** The outcome of a page *)

(** Among the next [m] responses, either all fail or a first one is
    served. *)
Lemma first_outcome (net : network) (m n : nat) :
  (forall i, (i < m)%nat -> failed (net (n + i)%nat) = true) \/
  (exists k data,
     (k < m)%nat /\
     (forall i, (i < k)%nat -> failed (net (n + i)%nat) = true) /\
     fetched (net (n + k)%nat) = Some data) \/
  (exists k e,
     (k < m)%nat /\
     (forall i, (i < k)%nat -> failed (net (n + i)%nat) = true) /\
     refused (net (n + k)%nat) = Some e).
Proof.
  induction m as [| m IH].
  - left. intros i Hi. lia.
  - destruct IH as [Hall | [(k & data & Hk & Hfail & Hdata)
                           | (k & e & Hk & Hfail & He)]].
    + destruct (response_cases (net (n + m)%nat))
        as [H | [H | [(data & H) | (e & H)]]].
      * left. intros i Hi.
        destruct (Nat.eq_dec i m) as [-> | Hne]; [| apply Hall; lia].
        unfold failed. rewrite H. reflexivity.
      * left. intros i Hi.
        destruct (Nat.eq_dec i m) as [-> | Hne]; [| apply Hall; lia].
        unfold failed. rewrite H. apply orb_true_r.
      * right. left. exists m, data.
        split; [lia |]. split; [exact Hall | exact H].
      * right. right. exists m, e.
        split; [lia |]. split; [exact Hall | exact H].
    + right. left. exists k, data.
      split; [lia |]. split; [exact Hfail | exact Hdata].
    + right. right. exists k, e.
      split; [lia |]. split; [exact Hfail | exact He].
Qed.

Lemma scrape_page_outcome (net : network) page max_retries n :
  let r := scrape_page net page max_retries n in
  (value r = Ok None /\
   sent r = (n + Z.to_nat max_retries)%nat /\
   requests (trace r) = repeat page (Z.to_nat max_retries) /\
   forall i, (i < Z.to_nat max_retries)%nat ->
             failed (net (n + i)%nat) = true) \/
  (exists k data,
     (k < Z.to_nat max_retries)%nat /\
     (forall i, (i < k)%nat -> failed (net (n + i)%nat) = true) /\
     fetched (net (n + k)%nat) = Some data /\
     value r = rbind (_extract_anime_data data page)
                     (fun recs => Ok (Some recs)) /\
     sent r = (n + k + 1)%nat /\
     requests (trace r) = repeat page (k + 1)) \/
  (exists k e,
     (k < Z.to_nat max_retries)%nat /\
     (forall i, (i < k)%nat -> failed (net (n + i)%nat) = true) /\
     refused (net (n + k)%nat) = Some e /\
     value r = Raise e /\
     sent r = (n + k + 1)%nat /\
     requests (trace r) = repeat page (k + 1)).
Proof.
  cbv zeta. unfold scrape_page.
  destruct (first_outcome net (Z.to_nat max_retries) n)
    as [Hall | [(k & data & Hk & Hfail & Hdata) | (k & e & Hk & Hfail & He)]].
  - left.
    destruct (attempts_all_failed net page max_retries
                (Z.to_nat max_retries) 0 n ltac:(f_equal; lia) Hall)
      as (Hv & Hs & Hr).
    auto.
  - right. left. exists k, data.
    destruct (attempts_fetched_after net page max_retries k 0 n data
                ltac:(lia) Hfail Hdata) as (Hv & Hs & Hr & _).
    auto 8.
  - right. right. exists k, e.
    destruct (attempts_refused_after net page max_retries k 0 n e
                ltac:(lia) Hfail He) as (Hv & Hs & Hr & _).
    auto 8.
Qed.

Lemma scrape_page_requests (net : network) page max_retries n :
  Forall (eq page) (requests (trace (scrape_page net page max_retries n))).
Proof.
  destruct (scrape_page_outcome net page max_retries n)
    as [(_ & _ & -> & _) | [(k & data & _ & _ & _ & _ & _ & ->)
                           | (k & e & _ & _ & _ & _ & _ & ->)]];
    apply Forall_forall; intros x Hx; apply repeat_spec in Hx; auto.
Qed.

(** A served page whose body is well formed gives its records. *)
Lemma scrape_page_returns (net : network) page max_retries n :
  (forall m data, fetched (net m) = Some data -> wf_page data = true) ->
  (forall m, refused (net m) = None) ->
  exists v, value (scrape_page net page max_retries n) = Ok v.
Proof.
  intros Hwf Hdec.
  destruct (scrape_page_outcome net page max_retries n)
    as [(-> & _) | [(k & data & _ & _ & Hdata & -> & _)
                   | (k & e & _ & _ & He & _)]].
  - eauto.
  - destruct (extract_data_wf data page (Hwf _ _ Hdata)) as (recs & -> & _).
    simpl. eauto.
  - rewrite Hdec in He. discriminate.
Qed.

(** ** The range loop *)

Lemma run_eta {A} (r : run A) : Run (value r) (sent r) (trace r) = r.
Proof. destruct r. reflexivity. Qed.

Lemma bind_ret_l {A B} (a : A) (k : A -> io B) n : bind (ret a) k n = k a n.
Proof. unfold bind, ret. simpl. apply run_eta. Qed.

Lemma bind_assoc {A B C} (m : io A) (f : A -> io B) (g : B -> io C) n :
  bind (bind m f) g n = bind m (fun a => bind (f a) g) n.
Proof.
  unfold bind.
  destruct (m n) as [[a | e] s t]; simpl; [| reflexivity].
  destruct (f a s) as [[b | e] s' t']; simpl; [| reflexivity].
  destruct (g b s') as [v s'' t'']; simpl.
  rewrite app_assoc. reflexivity.
Qed.

Lemma bind_ext {A B} (m : io A) (k1 k2 : A -> io B) n :
  (forall a s, k1 a s = k2 a s) -> bind m k1 n = bind m k2 n.
Proof.
  intro H. unfold bind.
  destruct (m n) as [[a | e] s t]; simpl; [| reflexivity].
  rewrite H. reflexivity.
Qed.

Lemma requests_app l1 l2 : requests (l1 ++ l2) = requests l1 ++ requests l2.
Proof.
  induction l1 as [| [page | secs | m] rest IH]; simpl; rewrite ?IH; reflexivity.
Qed.

Lemma announced_app l1 l2 :
  announced (l1 ++ l2) = announced l1 ++ announced l2.
Proof.
  induction l1 as [| [page | secs | []] rest IH]; simpl; rewrite ?IH;
    reflexivity.
Qed.

Lemma scrape_range_step_run net end_page delay page all_data n :
  scrape_range_step net end_page delay page all_data n =
    let r := scrape_page net page 3 n in
    match value r with
    | Ok page_data =>
        Run (Ok (if truthy page_data then all_data ++ list_of page_data
                 else all_data))
            (sent r)
            (Print (MsgScraping page end_page) ::
             trace r ++ verdict end_page delay page page_data)
    | Raise e =>
        Run (Raise e) (sent r) (Print (MsgScraping page end_page) :: trace r)
    end.
Proof.
  unfold scrape_range_step, verdict.
  generalize (scrape_page net page 3). intro m.
  unfold bind, print, sleep, emit, ret. simpl.
  destruct (m n) as [[page_data | e] s t]; simpl; [| reflexivity].
  destruct (truthy page_data); destruct (page <? end_page); reflexivity.
Qed.

Lemma falsy_list_of {A} (v : option (list A)) :
  truthy v = false -> list_of v = [].
Proof. destruct v as [[| x l] |]; simpl; congruence. Qed.

Lemma scrape_range_loop_cons net end_page delay page rest all_data n :
  scrape_range_loop net end_page delay (page :: rest) all_data n =
    bind (scrape_range_step net end_page delay page all_data)
         (fun all_data' => scrape_range_loop net end_page delay rest all_data')
         n.
Proof. reflexivity. Qed.

Lemma scrape_range_loop_app net end_page delay l1 l2 :
  forall all_data n,
    scrape_range_loop net end_page delay (l1 ++ l2) all_data n =
      bind (scrape_range_loop net end_page delay l1 all_data)
           (fun all_data' => scrape_range_loop net end_page delay l2 all_data')
           n.
Proof.
  induction l1 as [| page rest IH]; intros all_data n.
  - simpl. rewrite bind_ret_l. reflexivity.
  - cbn [scrape_range_loop app]. rewrite bind_assoc.
    apply bind_ext. intros acc' s. apply IH.
Qed.

Lemma attempts_announce_nothing net page max_retries l :
  forall n, announced (trace (scrape_attempts net page max_retries l n)) = [].
Proof.
  induction l as [| attempt rest IH]; intro n; [reflexivity |].
  destruct (response_cases (net n)) as [H | [H | [(data & H) | (e & H)]]].
  - rewrite attempt_rate_limited by assumption. simpl. apply IH.
  - destruct (Z_lt_le_dec attempt (max_retries - 1)).
    + rewrite attempt_request_error_retry by assumption. simpl. apply IH.
    + rewrite attempt_request_error_final by assumption. reflexivity.
  - rewrite (attempt_fetched _ _ _ _ _ _ data) by assumption. reflexivity.
  - rewrite (attempt_refused _ _ _ _ _ _ e) by assumption. reflexivity.
Qed.

Lemma verdict_requests end_page delay page page_data :
  requests (verdict end_page delay page page_data) = [].
Proof. unfold verdict. simpl. destruct (page <? end_page); reflexivity. Qed.

Lemma verdict_announced end_page delay page page_data :
  announced (verdict end_page delay page page_data) = [].
Proof.
  unfold verdict. simpl.
  destruct (truthy page_data); destruct (page <? end_page); reflexivity.
Qed.

(** The events of one iteration. *)
Lemma step_trace net end_page delay page all_data n :
  requests (trace (scrape_range_step net end_page delay page all_data n))
    = requests (trace (scrape_page net page 3 n)) /\
  sent (scrape_range_step net end_page delay page all_data n)
    = sent (scrape_page net page 3 n) /\
  (forall acc',
     value (scrape_range_step net end_page delay page all_data n) = Ok acc' ->
     announced (trace (scrape_range_step net end_page delay page all_data n))
       = [page]).
Proof.
  rewrite scrape_range_step_run. cbv zeta.
  destruct (value (scrape_page net page 3 n)) as [page_data | e];
    cbn [value sent trace requests announced].
  - rewrite requests_app, verdict_requests, app_nil_r.
    rewrite announced_app, verdict_announced, app_nil_r.
    unfold scrape_page. rewrite attempts_announce_nothing. auto.
  - repeat split. discriminate.
Qed.

(** Every request of a run over [pages] is for one of these pages. *)
Lemma loop_requests net end_page delay pages :
  forall all_data n,
    Forall (fun q => In q pages)
      (requests (trace (scrape_range_loop net end_page delay pages all_data n))).
Proof.
  induction pages as [| page rest IH]; intros all_data n.
  - constructor.
  - rewrite scrape_range_loop_cons. unfold bind.
    pose proof (step_trace net end_page delay page all_data n) as (Hreq & _).
    pose proof (scrape_page_requests net page 3 n) as Hpage.
    rewrite <- Hreq in Hpage.
    assert (Hhere : Forall (fun q => In q (page :: rest))
                      (requests (trace (scrape_range_step net end_page delay
                                          page all_data n)))).
    { eapply Forall_impl; [| exact Hpage]. intros q <-. left. reflexivity. }
    destruct (value (scrape_range_step net end_page delay page all_data n));
      simpl; [| exact Hhere].
    rewrite requests_app. apply Forall_app. split; [exact Hhere |].
    eapply Forall_impl; [| apply IH]. intros q Hq. right. exact Hq.
Qed.

(** A run over well-formed pages returns the accumulator extended with
    what each page returned, after announcing every page. *)
Lemma loop_collects net end_page delay :
  (forall m data, fetched (net m) = Some data -> wf_page data = true) ->
  (forall m, refused (net m) = None) ->
  forall pages all_data n,
    let r := scrape_range_loop net end_page delay pages all_data n in
    value r = Ok (all_data ++ collected net pages n) /\
    announced (trace r) = pages.
Proof.
  intros Hwf Hdec pages.
  induction pages as [| page rest IH]; intros all_data n; cbv zeta.
  - simpl. rewrite app_nil_r. auto.
  - rewrite scrape_range_loop_cons. unfold bind.
    pose proof (step_trace net end_page delay page all_data n)
      as (_ & Hsent & Hann).
    destruct (scrape_page_returns net page 3 n Hwf Hdec) as (page_data & Hpd).
    assert (Hstep : value (scrape_range_step net end_page delay page all_data n)
                    = Ok (all_data ++ list_of page_data)).
    { rewrite scrape_range_step_run. cbv zeta. rewrite Hpd. simpl.
      destruct (truthy page_data) eqn:E; [reflexivity |].
      rewrite (falsy_list_of _ E), app_nil_r. reflexivity. }
    rewrite Hstep. cbn [value sent trace].
    rewrite Hsent.
    destruct (IH (all_data ++ list_of page_data)
                 (sent (scrape_page net page 3 n))) as (Hv & Ha).
    rewrite Hv, announced_app, Ha, (Hann _ Hstep).
    split; [| reflexivity].
    cbn [collected]. rewrite Hpd, <- app_assoc.
    destruct page_data; reflexivity.
Qed.

(** With pages of at most 25 items, the records of a page lie in the
    page's own block of identifiers. *)
Lemma collected_ids (net : network) :
  (forall m data, fetched (net m) = Some data -> page_ok data = true) ->
  forall pages n,
    Forall (fun info => exists q, In q pages /\
                                  (q - 1) * 25 < reset_id info <= q * 25)
           (collected net pages n).
Proof.
  intros Hok pages.
  induction pages as [| page rest IH]; intro n; cbn [collected].
  - constructor.
  - apply Forall_app. split.
    + destruct (scrape_page_outcome net page 3 n)
        as [(-> & _) | [(k & data & _ & _ & Hdata & -> & _)
                       | (k & e & _ & _ & _ & -> & _)]];
        [constructor | | constructor].
      pose proof (Hok _ _ Hdata) as Hpage.
      unfold page_ok in Hpage. apply andb_true_iff in Hpage.
      destruct Hpage as [Hwf Hlen]. apply Nat.leb_le in Hlen.
      destruct (extract_data_wf data page Hwf) as (recs & E & Hitems).
      rewrite E. simpl.
      apply extract_items_length in Hitems.
      apply Forall_forall. intros info Hin.
      apply In_nth_error in Hin. destruct Hin as (i & Hi).
      pose proof (extract_data_nth_id _ _ _ E _ _ Hi) as Hid.
      assert (i < List.length recs)%nat
        by (apply nth_error_Some; congruence).
      exists page. split; [left; reflexivity | lia].
    + eapply Forall_impl; [| apply IH].
      intros info (q & Hq & Hid). exists q. split; [right; exact Hq | exact Hid].
Qed.

Lemma collected_all_failed (net : network) :
  (forall m, failed (net m) = true) ->
  forall pages n, collected net pages n = [].
Proof.
  intros Hfail pages.
  induction pages as [| page rest IH]; intro n; cbn [collected]; [reflexivity |].
  rewrite IH, app_nil_r.
  destruct (scrape_page_outcome net page 3 n)
    as [(-> & _) | [(k & data & _ & _ & Hdata & _)
                   | (k & e & _ & _ & He & _)]]; [reflexivity | |].
  - apply fetched_not_failed in Hdata. rewrite Hfail in Hdata. discriminate.
  - apply refused_not_failed in He. rewrite Hfail in He. discriminate.
Qed.

Lemma page_ok_wf data : page_ok data = true -> wf_page data = true.
Proof. unfold page_ok. intro H. apply andb_true_iff in H. apply H. Qed.

(** A page whose three attempts fail leaves the accumulator as it was. *)
Lemma step_exhausted (net : network) end_page delay page all_data n :
  (forall k, (k < 3)%nat -> failed (net (n + k)%nat) = true) ->
  let s := scrape_range_step net end_page delay page all_data n in
  value s = Ok all_data /\ sent s = (n + 3)%nat /\
  requests (trace s) = [page; page; page].
Proof.
  intro Hfail. cbv zeta.
  destruct (attempts_all_failed net page 3 3 0 n eq_refl Hfail)
    as (Hv & Hs & Hr).
  fold (scrape_page net page 3 n) in Hv, Hs, Hr.
  pose proof (step_trace net end_page delay page all_data n) as (-> & -> & _).
  rewrite Hs, Hr. repeat split.
  rewrite scrape_range_step_run. cbv zeta. rewrite Hv. reflexivity.
Qed.

Lemma count_occ_outside (l : list Z) (pages : list Z) (p : Z) :
  Forall (fun q => In q pages) l -> ~ In p pages ->
  count_occ Z.eq_dec l p = 0%nat.
Proof.
  intros Hl Hp. apply count_occ_not_In. intro Hin.
  rewrite Forall_forall in Hl. apply Hp, Hl, Hin.
Qed.

(** C2: a page that exhausts its three attempts adds no record and leaves
    the records accumulated before it untouched; it is requested three
    times and never again; the pages after it keep their own numbers, so
    the identifiers of its block stay absent.  Pages 1..3 with page 2
    exhausted and 25 items on pages 1 and 3 give 50 records numbered 1..25
    and 51..75. *)
Theorem exhausted_page_leaves_gap :
  (forall (net : network) start_page end_page delay p c,
     start_page <= p <= end_page ->
     (forall m data, fetched (net m) = Some data -> page_ok data = true) ->
     (forall m, refused (net m) = None) ->
     let before :=
       scrape_range_loop net end_page delay (py_range start_page p) [] c in
     (forall k, (k < 3)%nat -> failed (net (sent before + k)%nat) = true) ->
     let r := scrape_range net start_page end_page delay c in
     exists acc tail,
       value before = Ok acc /\
       value r = Ok (acc ++ tail) /\
       tail = collected net (py_range (p + 1) (end_page + 1))
                        (sent before + 3)%nat /\
       Forall (fun info => reset_id info <= (p - 1) * 25) acc /\
       Forall (fun info => p * 25 < reset_id info) tail /\
       count_occ Z.eq_dec (requests (trace r)) p = 3%nat) /\
  (let r := scrape_range net_page2_exhausted 1 3 DELAY_BETWEEN_REQUESTS 0%nat in
   exists out,
     value r = Ok out /\ List.length out = 50%nat /\
     map reset_id out = py_range 1 26 ++ py_range 51 76).
Proof.
  split.
  - intros net start_page end_page delay p c Hp Hok Hdec before Hfail r.
    assert (Hwf : forall m data, fetched (net m) = Some data ->
                                 wf_page data = true).
    { intros m data H. apply page_ok_wf, (Hok m), H. }
    set (l1 := py_range start_page p) in *.
    set (l2 := py_range (p + 1) (end_page + 1)).
    assert (Hsplit : py_range start_page (end_page + 1) = l1 ++ p :: l2).
    { subst l1 l2.
      rewrite (py_range_app start_page p (end_page + 1)) by lia.
      rewrite (py_range_cons p) by lia. reflexivity. }
    destruct (loop_collects net end_page delay Hwf Hdec l1 [] c)
      as (Hbefore & _).
    fold before in Hbefore. simpl in Hbefore.
    set (acc := collected net l1 c) in *.
    set (n1 := sent before) in *.
    destruct (step_exhausted net end_page delay p acc n1 Hfail)
      as (Hsv & Hss & Hsr).
    destruct (loop_collects net end_page delay Hwf Hdec l2 acc (n1 + 3)%nat)
      as (Hafter & _).
    set (tail := collected net l2 (n1 + 3)%nat) in *.
    assert (Hrun : r = let s := scrape_range_step net end_page delay p acc n1 in
                       let a := scrape_range_loop net end_page delay l2 acc
                                  (n1 + 3)%nat in
                       Run (value a) (sent a)
                           (trace before ++ trace s ++ trace a)).
    { subst r. unfold scrape_range. rewrite Hsplit, scrape_range_loop_app.
      unfold bind at 1. fold before. rewrite Hbefore.
      rewrite scrape_range_loop_cons. unfold bind. fold n1.
      rewrite Hsv, Hss. reflexivity. }
    exists acc, tail. rewrite Hrun. cbv zeta. cbn [value sent trace].
    repeat split.
    + exact Hbefore.
    + exact Hafter.
    + eapply Forall_impl; [| apply (collected_ids net Hok l1 c)].
      intros info (q & Hq & Hid). subst l1. apply in_py_range in Hq. nia.
    + eapply Forall_impl; [| apply (collected_ids net Hok l2 (n1 + 3)%nat)].
      intros info (q & Hq & Hid). subst l2. apply in_py_range in Hq. nia.
    + rewrite !requests_app, !count_occ_app, Hsr.
      rewrite (count_occ_outside (requests (trace before)) l1).
      rewrite (count_occ_outside
                 (requests (trace (scrape_range_loop net end_page delay l2 acc
                                     (n1 + 3)%nat))) l2).
      * simpl. destruct (Z.eq_dec p p); [reflexivity | contradiction].
      * apply loop_requests.
      * subst l2. rewrite in_py_range. lia.
      * apply loop_requests.
      * subst l1. rewrite in_py_range. lia.
  - cbv zeta. eexists. split; [vm_compute; reflexivity |].
    split; reflexivity.
Qed.

Lemma exhausted_page_leaves_gap_witness :
  exists acc tail,
    value (scrape_range_loop net_page2_exhausted 3 DELAY_BETWEEN_REQUESTS
             (py_range 1 2) [] 0%nat) = Ok acc /\
    value (scrape_range net_page2_exhausted 1 3 DELAY_BETWEEN_REQUESTS 0%nat)
      = Ok (acc ++ tail) /\
    tail = collected net_page2_exhausted (py_range (2 + 1) (3 + 1)) (1 + 3)%nat /\
    Forall (fun info => reset_id info <= (2 - 1) * 25) acc /\
    Forall (fun info => 2 * 25 < reset_id info) tail /\
    count_occ Z.eq_dec
      (requests (trace (scrape_range net_page2_exhausted 1 3
                          DELAY_BETWEEN_REQUESTS 0%nat))) 2 = 3%nat.
Proof.
  destruct exhausted_page_leaves_gap as [H _].
  refine (H net_page2_exhausted 1 3 DELAY_BETWEEN_REQUESTS 2 0%nat _ _ _ _).
  - lia.
  - intros m data.
    destruct m as [| [| [| [| [| m]]]]]; simpl;
      try discriminate; try (destruct m; discriminate);
      intro E; injection E as <-; reflexivity.
  - apply script_never_refused; repeat constructor.
  - intros k Hk.
    destruct k as [| [| [| k]]]; [reflexivity | reflexivity | reflexivity | lia].
Defined.

(** ** Errors *)

(** An exception of the extractor leaves [scrape_page]. *)
Lemma scrape_page_raise_extractor (net : network) page max_retries n k data e :
  Z.of_nat k < max_retries ->
  (forall i, (i < k)%nat -> failed (net (n + i)%nat) = true) ->
  fetched (net (n + k)%nat) = Some data ->
  _extract_anime_data data page = Raise e ->
  value (scrape_page net page max_retries n) = Raise e.
Proof.
  intros Hk Hfail Hdata Hraise. unfold scrape_page.
  destruct (attempts_fetched_after net page max_retries k 0 n data
              ltac:(lia) Hfail Hdata) as (Hv & _).
  rewrite Hv, Hraise. reflexivity.
Qed.

(** What [scrape_page] raises, the loop of [scrape_range] raises. *)
Lemma loop_passes_raise (net : network) start_page end_page delay c p acc e :
  start_page <= p <= end_page ->
  value (scrape_range_loop net end_page delay (py_range start_page p) [] c)
    = Ok acc ->
  value (scrape_page net p 3
           (sent (scrape_range_loop net end_page delay
                    (py_range start_page p) [] c))) = Raise e ->
  value (scrape_range net start_page end_page delay c) = Raise e.
Proof.
  intros Hp Hacc Hraise. unfold scrape_range.
  rewrite (py_range_app start_page p (end_page + 1)) by lia.
  rewrite (py_range_cons p) by lia.
  rewrite scrape_range_loop_app. unfold bind at 1. rewrite Hacc.
  cbn [value]. rewrite scrape_range_loop_cons. unfold bind.
  rewrite scrape_range_step_run. cbv zeta. rewrite Hraise. reflexivity.
Qed.

(** C5 (amended): [scrape_page] contains the 429 status and the request
    errors (failed transport, 4xx or 5xx status, body that is not JSON):
    when all its attempts fail in these ways it returns no result, and
    the iteration of [scrape_range] keeps its accumulator.  Other
    exceptions are not contained: the extractor's on a fetched body and
    the decoder's other than its request error leave [scrape_page], and
    what [scrape_page] raises, [scrape_range] raises. *)
Theorem request_failures_are_contained :
  (forall (net : network) page max_retries c,
     (forall i, Z.of_nat i < max_retries -> failed (net (c + i)%nat) = true) ->
     value (scrape_page net page max_retries c) = Ok None) /\
  (forall (net : network) end_page delay page all_data c,
     (forall i, (i < 3)%nat -> failed (net (c + i)%nat) = true) ->
     value (scrape_range_step net end_page delay page all_data c)
       = Ok all_data) /\
  (forall (net : network) page max_retries c k data e,
     Z.of_nat k < max_retries ->
     (forall i, (i < k)%nat -> failed (net (c + i)%nat) = true) ->
     fetched (net (c + k)%nat) = Some data ->
     _extract_anime_data data page = Raise e ->
     value (scrape_page net page max_retries c) = Raise e) /\
  (forall (net : network) page max_retries c k e,
     Z.of_nat k < max_retries ->
     (forall i, (i < k)%nat -> failed (net (c + i)%nat) = true) ->
     refused (net (c + k)%nat) = Some e ->
     value (scrape_page net page max_retries c) = Raise e) /\
  (forall (net : network) start_page end_page delay c p acc e,
     start_page <= p <= end_page ->
     let before :=
       scrape_range_loop net end_page delay (py_range start_page p) [] c in
     value before = Ok acc ->
     value (scrape_page net p 3 (sent before)) = Raise e ->
     value (scrape_range net start_page end_page delay c) = Raise e).
Proof.
  split; [| split; [| split; [| split]]].
  - intros net page max_retries c Hfail. unfold scrape_page.
    apply (attempts_all_failed net page max_retries
             (Z.to_nat max_retries) 0 c); [f_equal; lia |].
    intros i Hi. apply Hfail. lia.
  - intros net end_page delay page all_data c Hfail.
    apply (step_exhausted net end_page delay page all_data c Hfail).
  - intros net page max_retries c k data e.
    apply scrape_page_raise_extractor.
  - intros net page max_retries c k e Hk Hfail He. unfold scrape_page.
    apply (attempts_refused_after net page max_retries k 0 c e);
      [lia | exact Hfail | exact He].
  - intros net start_page end_page delay c p acc e Hp before.
    apply loop_passes_raise, Hp.
Qed.

Lemma request_failures_are_contained_witness :
  value (scrape_page net_down 4 3 0%nat) = Ok None /\
  value (scrape_range_step net_page2_exhausted 3 DELAY_BETWEEN_REQUESTS 2
           (collected net_page2_exhausted [1] 0%nat) 1%nat)
    = Ok (collected net_page2_exhausted [1] 0%nat) /\
  value (scrape_page net_null_genres 1 3 0%nat) = Raise TypeError /\
  value (scrape_page net_huge_integer 1 3 0%nat) = Raise ValueError /\
  value (scrape_range net_page2_unreadable 1 3 DELAY_BETWEEN_REQUESTS 0%nat)
    = Raise RecursionError.
Proof.
  destruct request_failures_are_contained
    as (Hnone & Hstep & Hextract & Hdecode & Hrange).
  split; [| split; [| split; [| split]]].
  - apply (Hnone net_down 4 3 0%nat). intros i _. reflexivity.
  - apply (Hstep net_page2_exhausted 3 DELAY_BETWEEN_REQUESTS 2).
    intros i Hi.
    destruct i as [| [| [| i]]]; [reflexivity | reflexivity | reflexivity | lia].
  - refine (Hextract net_null_genres 1 3 0%nat 0%nat page_with_null_genres
              TypeError _ _ _ _).
    + lia.
    + intros i Hi. lia.
    + reflexivity.
    + reflexivity.
  - refine (Hdecode net_huge_integer 1 3 0%nat 1%nat ValueError _ _ _).
    + lia.
    + intros i Hi. replace i with 0%nat by lia. reflexivity.
    + reflexivity.
  - refine (Hrange net_page2_unreadable 1 3 DELAY_BETWEEN_REQUESTS 0%nat 2
              (collected net_page2_unreadable [1] 0%nat) RecursionError
              _ _ _).
    + lia.
    + vm_compute. reflexivity.
    + vm_compute. reflexivity.
Defined.

(** C5 as stated fails: a 200 response whose item has a null [genres]
    makes the extractor raise inside [scrape_page], and [scrape_range]
    receives the exception. *)
Lemma extraction_error_reaches_scrape_range :
  fetched (net_null_genres 0%nat) = Some page_with_null_genres /\
  value (scrape_page net_null_genres 1 3 0%nat) = Raise TypeError /\
  value (scrape_range net_null_genres 1 3 DELAY_BETWEEN_REQUESTS 0%nat)
    = Raise TypeError.
Proof. repeat split. Qed.




(** ** Runs against networks that answer alike *)

Lemma agree_head netA nA netB nB :
  agree netA nA netB nB -> netA nA = netB nB.
Proof. intro H. specialize (H 0%nat). rewrite !Nat.add_0_r in H. exact H. Qed.

Lemma agree_shift netA nA netB nB k :
  agree netA nA netB nB -> agree netA (nA + k) netB (nB + k).
Proof.
  intros H i. rewrite <- !Nat.add_assoc. apply H.
Qed.

Lemma same_outcome_refl_run {A} (v : result A) (t : list event) nA nB k :
  same_outcome (Run v (nA + k)%nat t) (Run v (nB + k)%nat t) nA nB.
Proof. repeat split. exists k. split; reflexivity. Qed.

Lemma attempts_agree netA netB page max_retries l :
  forall nA nB,
    agree netA nA netB nB ->
    same_outcome (scrape_attempts netA page max_retries l nA)
                 (scrape_attempts netB page max_retries l nB) nA nB.
Proof.
  induction l as [| attempt rest IH]; intros nA nB Hagree.
  - simpl. unfold ret.
    rewrite <- (Nat.add_0_r nA) at 1. rewrite <- (Nat.add_0_r nB) at 1.
    apply same_outcome_refl_run.
  - pose proof (agree_head _ _ _ _ Hagree) as Hhead.
    assert (Hnext : agree netA (S nA) netB (S nB)).
    { replace (S nA) with (nA + 1)%nat by lia.
      replace (S nB) with (nB + 1)%nat by lia.
      apply agree_shift, Hagree. }
    destruct (IH _ _ Hnext) as (Hv & Ht & k & HsA & HsB).
    assert (Hrec : forall evs,
               same_outcome
                 (Run (value (scrape_attempts netA page max_retries rest (S nA)))
                      (sent (scrape_attempts netA page max_retries rest (S nA)))
                      (evs ++ trace (scrape_attempts netA page max_retries rest (S nA))))
                 (Run (value (scrape_attempts netB page max_retries rest (S nB)))
                      (sent (scrape_attempts netB page max_retries rest (S nB)))
                      (evs ++ trace (scrape_attempts netB page max_retries rest (S nB))))
                 nA nB).
    { intro evs. repeat split; cbn [value sent trace].
      - exact Hv.
      - rewrite Ht. reflexivity.
      - exists (S k). split; lia. }
    destruct (response_cases (netA nA)) as [H | [H | [(data & H) | (e & H)]]].
    + rewrite (attempt_rate_limited netA) by assumption.
      rewrite (attempt_rate_limited netB) by (rewrite <- Hhead; assumption).
      apply (Hrec [_; _; _]).
    + destruct (Z_lt_le_dec attempt (max_retries - 1)).
      * rewrite (attempt_request_error_retry netA) by assumption.
        rewrite (attempt_request_error_retry netB)
          by (assumption || rewrite <- Hhead; assumption).
        apply (Hrec [_; _; _]).
      * rewrite (attempt_request_error_final netA) by assumption.
        rewrite (attempt_request_error_final netB)
          by (assumption || rewrite <- Hhead; assumption).
        replace (S nA) with (nA + 1)%nat by lia.
        replace (S nB) with (nB + 1)%nat by lia.
        apply same_outcome_refl_run.
    + rewrite (attempt_fetched netA _ _ _ _ _ data) by assumption.
      rewrite (attempt_fetched netB _ _ _ _ _ data)
        by (rewrite <- Hhead; assumption).
      replace (S nA) with (nA + 1)%nat by lia.
      replace (S nB) with (nB + 1)%nat by lia.
      apply same_outcome_refl_run.
    + rewrite (attempt_refused netA _ _ _ _ _ e) by assumption.
      rewrite (attempt_refused netB _ _ _ _ _ e)
        by (rewrite <- Hhead; assumption).
      replace (S nA) with (nA + 1)%nat by lia.
      replace (S nB) with (nB + 1)%nat by lia.
      apply same_outcome_refl_run.
Qed.

Lemma step_agree netA netB end_page delay page all_data nA nB :
  agree netA nA netB nB ->
  same_outcome (scrape_range_step netA end_page delay page all_data nA)
               (scrape_range_step netB end_page delay page all_data nB) nA nB.
Proof.
  intro Hagree.
  destruct (attempts_agree netA netB page 3 (py_range 0 3) nA nB Hagree)
    as (Hv & Ht & k & HsA & HsB).
  fold (scrape_page netA page 3 nA) in Hv, Ht, HsA.
  fold (scrape_page netB page 3 nB) in Hv, Ht, HsB.
  rewrite !scrape_range_step_run. cbv zeta.
  rewrite <- Hv, <- Ht, HsA, HsB.
  destruct (value (scrape_page netA page 3 nA)); apply same_outcome_refl_run.
Qed.

Lemma loop_agree netA netB end_page delay pages :
  forall all_data nA nB,
    agree netA nA netB nB ->
    same_outcome (scrape_range_loop netA end_page delay pages all_data nA)
                 (scrape_range_loop netB end_page delay pages all_data nB)
                 nA nB.
Proof.
  induction pages as [| page rest IH]; intros all_data nA nB Hagree.
  - simpl. unfold ret.
    rewrite <- (Nat.add_0_r nA) at 1. rewrite <- (Nat.add_0_r nB) at 1.
    apply same_outcome_refl_run.
  - rewrite !scrape_range_loop_cons. unfold bind.
    destruct (step_agree netA netB end_page delay page all_data nA nB Hagree)
      as (Hv & Ht & k & HsA & HsB).
    rewrite <- Hv, <- Ht, HsA, HsB.
    destruct (value (scrape_range_step netA end_page delay page all_data nA))
      as [acc' | e].
    + destruct (IH acc' _ _ (agree_shift _ _ _ _ k Hagree))
        as (Hv' & Ht' & k' & HsA' & HsB').
      repeat split; cbn [value sent trace].
      * exact Hv'.
      * rewrite Ht'. reflexivity.
      * exists (k + k')%nat. split; lia.
    + apply same_outcome_refl_run.
Qed.

(** C9: in the range loop a page served with zero items is handled like
    a page that exhausted its attempts: from the same accumulator, both
    iterations leave the accumulator unchanged and report the page as
    failed, and when the later responses are the same the two runs return
    the same records. *)
Theorem empty_page_handled_like_exhausted_page
  (netA netB : network) end_page delay p rest acc cA cB k data :
  (k < 3)%nat ->
  (forall i, (i < k)%nat -> failed (netA (cA + i)%nat) = true) ->
  fetched (netA (cA + k)%nat) = Some data ->
  _extract_anime_data data p = Ok [] ->
  (forall i, (i < 3)%nat -> failed (netB (cB + i)%nat) = true) ->
  agree netA (cA + k + 1) netB (cB + 3) ->
  let pA := scrape_page netA p 3 cA in
  let pB := scrape_page netB p 3 cB in
  let sA := scrape_range_step netA end_page delay p acc cA in
  let sB := scrape_range_step netB end_page delay p acc cB in
  let closing :=
    Print (MsgPageFailed p) :: (if p <? end_page then [Sleep delay] else []) in
  value pA = Ok (Some []) /\ value pB = Ok None /\
  value sA = Ok acc /\ value sB = Ok acc /\
  trace sA = Print (MsgScraping p end_page) :: trace pA ++ closing /\
  trace sB = Print (MsgScraping p end_page) :: trace pB ++ closing /\
  value (scrape_range_loop netA end_page delay (p :: rest) acc cA) =
  value (scrape_range_loop netB end_page delay (p :: rest) acc cB).
Proof.
  intros Hk HfailA Hdata Hempty HfailB Hagree pA pB sA sB closing.
  destruct (attempts_fetched_after netA p 3 k 0 cA data ltac:(lia) HfailA Hdata)
    as (HvA & HsA & _).
  fold (scrape_page netA p 3 cA) in HvA, HsA. fold pA in HvA, HsA.
  rewrite Hempty in HvA. cbn [rbind] in HvA.
  destruct (attempts_all_failed netB p 3 3 0 cB eq_refl HfailB)
    as (HvB & HsB & _).
  fold (scrape_page netB p 3 cB) in HvB, HsB. fold pB in HvB, HsB.
  assert (EA : sA = Run (Ok acc) (cA + k + 1)%nat
                        (Print (MsgScraping p end_page) :: trace pA ++ closing)).
  { subst sA. rewrite scrape_range_step_run. cbv zeta. fold pA.
    rewrite HvA, HsA. reflexivity. }
  assert (EB : sB = Run (Ok acc) (cB + 3)%nat
                        (Print (MsgScraping p end_page) :: trace pB ++ closing)).
  { subst sB. rewrite scrape_range_step_run. cbv zeta. fold pB.
    rewrite HvB, HsB. reflexivity. }
  repeat split; try assumption; try (rewrite EA; reflexivity);
    try (rewrite EB; reflexivity).
  rewrite !scrape_range_loop_cons. unfold bind.
  fold sA sB. rewrite EA, EB. cbn [value sent trace].
  apply (loop_agree netA netB end_page delay rest acc _ _ Hagree).
Qed.

Lemma empty_page_handled_like_exhausted_page_witness :
  value (scrape_range_loop net_page2_empty 3 DELAY_BETWEEN_REQUESTS [2; 3]
           (collected net_page2_empty [1] 0%nat) 1%nat) =
  value (scrape_range_loop net_page2_exhausted 3 DELAY_BETWEEN_REQUESTS [2; 3]
           (collected net_page2_empty [1] 0%nat) 1%nat).
Proof.
  pose proof (empty_page_handled_like_exhausted_page
                net_page2_empty net_page2_exhausted 3 DELAY_BETWEEN_REQUESTS
                2 [3] (collected net_page2_empty [1] 0%nat) 1%nat 1%nat
                0%nat empty_page) as H.
  cbv zeta in H.
  refine (proj2 (proj2 (proj2 (proj2 (proj2 (proj2 (H _ _ _ _ _ _))))))).
  - lia.
  - intros i Hi. lia.
  - reflexivity.
  - reflexivity.
  - intros i Hi.
    destruct i as [| [| [| i]]]; [reflexivity | reflexivity | reflexivity | lia].
  - intro i. reflexivity.
Defined.

(** * Further properties *)

(** ** The record extractor, beyond well-formed pages *)

Lemma extract_items_first_raise page e after bad :
  forall before index,
    forallb wf_item before = true ->
    extract_item page (index + Z.of_nat (List.length before)) bad = Raise e ->
    extract_items page index (before ++ bad :: after) = Raise e.
Proof.
  induction before as [| anime rest IH]; intros index Hwf Hbad.
  - simpl in *. rewrite Z.add_0_r in Hbad. rewrite Hbad. reflexivity.
  - simpl in Hwf. apply andb_true_iff in Hwf. destruct Hwf as [Ha Hrest].
    cbn [app extract_items].
    destruct (extract_item_wf page index anime Ha) as (info & ->).
    cbn [rbind]. rewrite (IH (index + 1)); [reflexivity | exact Hrest |].
    rewrite <- Hbad. f_equal. cbn [List.length]. lia.
Qed.

(** X1: extraction is all or nothing: when an item of the page makes the
    extractor raise, the page gives that exception and none of the
    records of the well-formed items before it. *)
Theorem extraction_is_all_or_nothing d before bad after page e :
  lookup "data" d = Some (JArr (before ++ bad :: after)) ->
  forallb wf_item before = true ->
  extract_item page (Z.of_nat (List.length before)) bad = Raise e ->
  _extract_anime_data (JObj d) page = Raise e.
Proof.
  intros Hd Hwf Hbad. unfold _extract_anime_data. simpl. rewrite Hd. simpl.
  apply extract_items_first_raise; assumption.
Qed.

Lemma extraction_is_all_or_nothing_witness :
  _extract_anime_data (JObj page_with_bad_second_item) 1 = Raise TypeError.
Proof.
  exact (extraction_is_all_or_nothing page_with_bad_second_item
           [sample_item 1] (JObj [("genres", JNull)]) [sample_item 3] 1
           TypeError eq_refl eq_refl eq_refl).
Defined.

Lemma first_default_skips pre t post fallback :
  forallb is_dict pre = true ->
  forallb (fun v => negb (is_default v)) pre = true ->
  first_default (pre ++ t :: post) fallback = first_default (t :: post) fallback.
Proof.
  induction pre as [| v rest IH]; intros Hdict Hnot; [reflexivity |].
  simpl in Hdict, Hnot.
  apply andb_true_iff in Hdict. destruct Hdict as [Hv Hdict].
  apply andb_true_iff in Hnot. destruct Hnot as [Hn Hnot].
  destruct v; try discriminate Hv.
  cbn [app first_default]. unfold is_default in Hn. simpl in Hn.
  simpl. apply negb_true_iff in Hn. rewrite Hn. apply IH; assumption.
Qed.

(** X2: the first title variant tagged "Default" decides the title alone:
    the title is its [title] field, and a [KeyError] when it has none;
    the variants after it and the item's scalar title are not looked
    at. *)
Theorem first_default_variant_decides d pre dflt post :
  lookup "titles" d = Some (JArr (pre ++ JObj dflt :: post)) ->
  forallb is_dict pre = true ->
  forallb (fun v => negb (is_default v)) pre = true ->
  is_default (JObj dflt) = true ->
  default_title (JObj d) =
    match lookup "title" dflt with
    | Some v => Ok v
    | None => Raise (KeyError "title")
    end.
Proof.
  intros Hts Hdict Hnot Hdflt. unfold default_title. simpl. rewrite Hts. simpl.
  rewrite first_default_skips by assumption.
  unfold is_default in Hdflt. simpl in Hdflt. simpl. rewrite Hdflt.
  reflexivity.
Qed.

Lemma first_default_variant_decides_witness :
  default_title
    (JObj [("titles", JArr ([JObj [("type", JStr "Japanese")]] ++
                            JObj [("type", JStr "Default")] ::
                            [JNull; JInt 3]));
           ("title", JStr "C")])
  = Raise (KeyError "title").
Proof.
  exact (first_default_variant_decides
           [("titles", JArr ([JObj [("type", JStr "Japanese")]] ++
                             JObj [("type", JStr "Default")] ::
                             [JNull; JInt 3]));
            ("title", JStr "C")]
           [JObj [("type", JStr "Japanese")]]
           [("type", JStr "Default")] [JNull; JInt 3]
           eq_refl eq_refl eq_refl eq_refl).
Defined.

(** X3: a [data] entry that is not a list: null, a number or a boolean
    cannot be iterated and raises [TypeError]; a non-empty mapping or text
    is iterated by keys or characters, which are no mappings, and raises
    [AttributeError]; an empty mapping or text is an empty page. *)
Theorem data_that_is_not_a_list :
  (forall d page v,
     lookup "data" d = Some v -> is_scalar v = true ->
     _extract_anime_data (JObj d) page = Raise TypeError) /\
  (forall d page k v rest,
     lookup "data" d = Some (JObj ((k, v) :: rest)) ->
     _extract_anime_data (JObj d) page = Raise AttributeError) /\
  (forall d page c s,
     lookup "data" d = Some (JStr (String c s)) ->
     _extract_anime_data (JObj d) page = Raise AttributeError) /\
  (forall d page,
     lookup "data" d = Some (JObj []) \/ lookup "data" d = Some (JStr "") ->
     _extract_anime_data (JObj d) page = Ok []).
Proof.
  unfold _extract_anime_data. split; [| split; [| split]].
  - intros d page v Hd Hv. simpl. rewrite Hd.
    destruct v; try discriminate Hv; reflexivity.
  - intros d page k v rest Hd. simpl. rewrite Hd. reflexivity.
  - intros d page c s Hd. simpl. rewrite Hd.
    cbn [py_iter]. unfold chars.
    destruct (code_points_cons c s) as (t & ps & ->). reflexivity.
  - intros d page [Hd | Hd]; simpl; rewrite Hd; reflexivity.
Qed.

Lemma data_that_is_not_a_list_witness :
  _extract_anime_data (JObj [("data", JNull)]) 1 = Raise TypeError /\
  _extract_anime_data (JObj [("data", JObj [("message", JStr "x")])]) 1
    = Raise AttributeError /\
  _extract_anime_data (JObj [("data", JStr "none")]) 1 = Raise AttributeError /\
  _extract_anime_data (JObj [("data", JObj [])]) 1 = Ok [].
Proof.
  destruct data_that_is_not_a_list as (H1 & H2 & H3 & H4).
  split; [| split; [| split]].
  - exact (H1 [("data", JNull)] 1 JNull eq_refl eq_refl).
  - exact (H2 [("data", JObj [("message", JStr "x")])] 1 _ _ _ eq_refl).
  - exact (H3 [("data", JStr "none")] 1 _ _ eq_refl).
  - exact (H4 [("data", JObj [])] 1 (or_introl eq_refl)).
Defined.

(** X4: the numbering assumes pages of at most 25 items: on a page with
    more, the 26th record gets the identifier of the first record of the
    next page. *)
Theorem oversized_page_reuses_next_page_ids
  api_response next_response page recs first rest :
  _extract_anime_data api_response page = Ok recs ->
  (25 < List.length recs)%nat ->
  _extract_anime_data next_response (page + 1) = Ok (first :: rest) ->
  exists info, nth_error recs 25 = Some info /\ reset_id info = reset_id first.
Proof.
  intros Hrecs Hlen Hnext.
  destruct (nth_error recs 25) as [info |] eqn:E.
  - exists info. split; [reflexivity |].
    rewrite (extract_data_nth_id _ _ _ Hrecs _ _ E).
    rewrite (extract_data_nth_id _ _ _ Hnext 0%nat first eq_refl).
    lia.
  - apply nth_error_None in E. lia.
Qed.

Lemma oversized_page_reuses_next_page_ids_witness :
  exists recs first rest info,
    _extract_anime_data oversized_page 1 = Ok recs /\
    _extract_anime_data (full_page 27) 2 = Ok (first :: rest) /\
    nth_error recs 25 = Some info /\ reset_id info = reset_id first.
Proof.
  destruct (oversized_page_reuses_next_page_ids oversized_page (full_page 27) 1
              _ _ _ eq_refl ltac:(simpl; lia) eq_refl) as (info & Hn & Hid).
  do 4 eexists.
  split; [reflexivity |]. split; [reflexivity |]. split; [exact Hn | exact Hid].
Defined.

Lemma genre_names_have_names gs :
  forallb has_name gs = true -> exists ns, genre_names gs = Ok ns.
Proof.
  induction gs as [| g rest IH]; simpl; intro H.
  - eauto.
  - apply andb_true_iff in H. destruct H as [Hg Hrest].
    destruct (IH Hrest) as (ns & E).
    destruct g; try discriminate Hg. simpl in *.
    destruct (lookup "name" fields); [| discriminate Hg].
    rewrite E. simpl. eauto.
Qed.

Lemma str_items_app_raise pre v post :
  is_text v = false -> str_items (pre ++ v :: post) = Raise TypeError.
Proof.
  intro Hv. induction pre as [| x rest IH]; simpl.
  - destruct v; try discriminate Hv; reflexivity.
  - destruct x; try reflexivity. rewrite IH. reflexivity.
Qed.

Lemma genre_names_app pre g post ns1 n ns2 :
  genre_names pre = Ok ns1 -> py_getitem g "name" = Ok n ->
  genre_names post = Ok ns2 ->
  genre_names (pre ++ g :: post) = Ok (ns1 ++ n :: ns2).
Proof.
  revert ns1. induction pre as [| x rest IH]; simpl; intros ns1 H1 Hg H2.
  - injection H1 as <-. rewrite Hg, H2. reflexivity.
  - do 2 rbind_inv H1. injection H1 as <-.
    rewrite Ha. simpl. rewrite (IH _ Ha0 Hg H2). reflexivity.
Qed.

(** X5: a genre name is never converted to text: when every genre tag of
    an item has a name and one of the names is not text (null, a number,
    a list), building the [genres] string raises [TypeError]. *)
Theorem genre_name_must_be_text d pre g post v :
  lookup "genres" d = Some (JArr (pre ++ JObj g :: post)) ->
  forallb has_name pre = true ->
  forallb has_name post = true ->
  lookup "name" g = Some v ->
  is_text v = false ->
  genres_string (JObj d) = Raise TypeError.
Proof.
  intros Hd Hpre Hpost Hg Hv.
  destruct (genre_names_have_names pre Hpre) as (ns1 & E1).
  destruct (genre_names_have_names post Hpost) as (ns2 & E2).
  unfold genres_string. simpl. rewrite Hd. simpl.
  rewrite (genre_names_app pre (JObj g) post ns1 v ns2 E1
             ltac:(simpl; rewrite Hg; reflexivity) E2).
  simpl. unfold py_join. rewrite str_items_app_raise by assumption.
  reflexivity.
Qed.

Lemma genre_name_must_be_text_witness :
  genres_string
    (JObj [("genres", JArr ([JObj [("name", JStr "Action")]] ++
                            JObj [("name", JNull)] :: []))])
  = Raise TypeError.
Proof.
  exact (genre_name_must_be_text
           [("genres", JArr ([JObj [("name", JStr "Action")]] ++
                             JObj [("name", JNull)] :: []))]
           [JObj [("name", JStr "Action")]] [("name", JNull)] [] JNull
           eq_refl eq_refl eq_refl eq_refl eq_refl).
Defined.

(** ** The retry loop: budget, backoff and status codes *)

(** X6: with at least one permitted attempt, [scrape_page] sends at least
    one and at most [max_retries] requests, all of them for its own
    page. *)
Theorem scrape_page_request_budget (net : network) page max_retries n :
  1 <= max_retries ->
  let r := scrape_page net page max_retries n in
  (n < sent r <= n + Z.to_nat max_retries)%nat /\
  requests (trace r) = repeat page (sent r - n).
Proof.
  intros Hmr r. subst r.
  destruct (scrape_page_outcome net page max_retries n)
    as [(_ & Hs & Hr & _) | [(k & data & Hk & _ & _ & _ & Hs & Hr)
                             | (k & e & Hk & _ & _ & _ & Hs & Hr)]];
    rewrite Hs, Hr.
  - split; [lia |]. f_equal. lia.
  - split; [lia |]. f_equal. lia.
  - split; [lia |]. f_equal. lia.
Qed.

Lemma scrape_page_request_budget_witness :
  (0 < sent (scrape_page net_429_429_ok 1 3 0%nat) <= 0 + Z.to_nat 3)%nat /\
  requests (trace (scrape_page net_429_429_ok 1 3 0%nat)) =
    repeat 1 (sent (scrape_page net_429_429_ok 1 3 0%nat) - 0).
Proof.
  exact (scrape_page_request_budget net_429_429_ok 1 3 0%nat ltac:(lia)).
Defined.

(** X7: with [max_retries <= 0] the loop body never runs: [scrape_page]
    returns no result without a request, a sleep or a line of output. *)
Theorem scrape_page_without_attempts (net : network) page max_retries n :
  max_retries <= 0 ->
  scrape_page net page max_retries n = Run (Ok None) n [].
Proof.
  intro H. unfold scrape_page. rewrite py_range_nil by lia. reflexivity.
Qed.

Lemma scrape_page_without_attempts_witness :
  scrape_page (script [ok_reply (full_page 1)] ConnectionFailed) 1 0 0%nat
    = Run (Ok None) 0%nat [].
Proof.
  exact (scrape_page_without_attempts _ 1 0 0%nat ltac:(lia)).
Defined.


Lemma attempts_never_pause (net : network) page max_retries l :
  forall n, pauses (trace (scrape_attempts net page max_retries l n)) = [].
Proof.
  induction l as [| attempt rest IH]; intro n; [reflexivity |].
  destruct (response_cases (net n)) as [H | [H | [(data & H) | (e & H)]]].
  - rewrite attempt_rate_limited by assumption. simpl. apply IH.
  - destruct (Z_lt_le_dec attempt (max_retries - 1)).
    + rewrite attempt_request_error_retry by assumption. simpl. apply IH.
    + rewrite attempt_request_error_final by assumption. reflexivity.
  - rewrite (attempt_fetched _ _ _ _ _ _ data) by assumption. reflexivity.
  - rewrite (attempt_refused _ _ _ _ _ _ e) by assumption. reflexivity.
Qed.

Lemma backoff_from (net : network) page max_retries k :
  forall attempt n,
    0 <= attempt <= max_retries ->
    k = Z.to_nat (max_retries - attempt) ->
    0 <= backoff_total
           (trace (scrape_attempts net page max_retries
                     (py_range attempt max_retries) n))
      <= 2 ^ max_retries - 2 ^ attempt.
Proof.
  induction k as [| k IH]; intros attempt n Ha Hk.
  - assert (attempt = max_retries) by lia. subst attempt.
    rewrite py_range_nil by lia. simpl. lia.
  - rewrite py_range_cons by lia.
    specialize (IH (attempt + 1) (S n) ltac:(lia) ltac:(lia)).
    assert (Hpow : 2 ^ (attempt + 1) = 2 * 2 ^ attempt)
      by (rewrite Z.pow_add_r by lia; lia).
    assert (Hle : 2 ^ attempt <= 2 ^ max_retries)
      by (apply Z.pow_le_mono_r; lia).
    assert (Hpos : 0 < 2 ^ attempt) by (apply Z.pow_pos_nonneg; lia).
    destruct (response_cases (net n)) as [H | [H | [(data & H) | (e & H)]]].
    + rewrite attempt_rate_limited by assumption. simpl. lia.
    + destruct (Z_lt_le_dec attempt (max_retries - 1)).
      * rewrite attempt_request_error_retry by assumption. simpl. lia.
      * rewrite attempt_request_error_final by assumption. simpl. lia.
    + rewrite (attempt_fetched _ _ _ _ _ _ data) by assumption. simpl. lia.
    + rewrite (attempt_refused _ _ _ _ _ _ e) by assumption. simpl. lia.
Qed.

Lemma backoff_all_rate_limited (net : network) page max_retries k :
  forall attempt n,
    0 <= attempt <= max_retries ->
    k = Z.to_nat (max_retries - attempt) ->
    (forall i, (i < k)%nat -> rate_limited (net (n + i)%nat) = true) ->
    backoff_total
      (trace (scrape_attempts net page max_retries
                (py_range attempt max_retries) n))
      = 2 ^ max_retries - 2 ^ attempt.
Proof.
  induction k as [| k IH]; intros attempt n Ha Hk Hrl.
  - assert (attempt = max_retries) by lia. subst attempt.
    rewrite py_range_nil by lia. simpl. lia.
  - rewrite py_range_cons by lia.
    assert (Hpow : 2 ^ (attempt + 1) = 2 * 2 ^ attempt)
      by (rewrite Z.pow_add_r by lia; lia).
    pose proof (Hrl 0%nat ltac:(lia)) as H0. rewrite Nat.add_0_r in H0.
    rewrite attempt_rate_limited by assumption. simpl.
    rewrite (IH (attempt + 1) (S n)); [lia | lia | lia |].
    intros i Hi. replace (S n + i)%nat with (n + S i)%nat by lia.
    apply Hrl. lia.
Qed.

(** X8: the backoff of one page is bounded: [scrape_page] sleeps whole
    seconds only, which add up to at most [2 ^ max_retries - 1] (7 for
    the default 3), and to exactly that when every attempt meets a
    429. *)
Theorem scrape_page_backoff_is_bounded (net : network) page max_retries n :
  0 <= max_retries ->
  let r := scrape_page net page max_retries n in
  0 <= backoff_total (trace r) <= 2 ^ max_retries - 1 /\
  pauses (trace r) = [] /\
  ((forall i, (i < Z.to_nat max_retries)%nat ->
              rate_limited (net (n + i)%nat) = true) ->
   backoff_total (trace r) = 2 ^ max_retries - 1).
Proof.
  intros Hmr r. subst r. unfold scrape_page. split; [| split].
  - pose proof (backoff_from net page max_retries (Z.to_nat max_retries) 0 n
                  ltac:(lia) ltac:(f_equal; lia)) as H.
    simpl in H. exact H.
  - apply attempts_never_pause.
  - intro Hrl.
    rewrite (backoff_all_rate_limited net page max_retries
               (Z.to_nat max_retries) 0 n ltac:(lia) ltac:(f_equal; lia) Hrl).
    reflexivity.
Qed.

Lemma scrape_page_backoff_is_bounded_witness :
  0 <= backoff_total (trace (scrape_page net_429_429_ok 1 3 0%nat)) <= 7 /\
  backoff_total (trace (scrape_page net_rate_limiting 1 3 0%nat)) = 7.
Proof.
  split.
  - exact (proj1 (scrape_page_backoff_is_bounded net_429_429_ok 1 3 0%nat
                    ltac:(lia))).
  - refine (proj2 (proj2 (scrape_page_backoff_is_bounded net_rate_limiting 1 3
                            0%nat ltac:(lia))) _).
    intros i _. reflexivity.
Defined.

Lemma served_trace_ends_with_get (net : network) page max_retries k :
  forall attempt n data,
    attempt + Z.of_nat k < max_retries ->
    (forall i, (i < k)%nat -> failed (net (n + i)%nat) = true) ->
    fetched (net (n + k)%nat) = Some data ->
    exists pre,
      trace (scrape_attempts net page max_retries
               (py_range attempt max_retries) n) = pre ++ [Get page].
Proof.
  induction k as [| k IH]; intros attempt n data Hlt Hfail Hdata.
  - rewrite py_range_cons by lia. rewrite Nat.add_0_r in Hdata.
    rewrite (attempt_fetched _ _ _ _ _ _ data) by assumption.
    exists []. reflexivity.
  - rewrite py_range_cons by lia.
    assert (Hrest : forall i, (i < k)%nat -> failed (net (S n + i)%nat) = true).
    { intros i Hi. replace (S n + i)%nat with (n + S i)%nat by lia.
      apply Hfail. lia. }
    replace (n + S k)%nat with (S n + k)%nat in Hdata by lia.
    destruct (IH (attempt + 1) (S n) data ltac:(lia) Hrest Hdata)
      as (pre & Hpre).
    destruct (failed_cases _ (Hfail 0%nat ltac:(lia))) as [[H _] | [_ H]];
      rewrite Nat.add_0_r in H.
    + rewrite attempt_rate_limited by assumption. simpl. rewrite Hpre.
      eexists (_ :: _ :: _ :: pre). reflexivity.
    + rewrite attempt_request_error_retry by (assumption || lia).
      simpl. rewrite Hpre.
      eexists (_ :: _ :: _ :: pre). reflexivity.
Qed.

Lemma served_response_ends_the_page_aux (net : network) page n k data :
  (k < 3)%nat ->
  (forall i, (i < k)%nat -> failed (net (n + i)%nat) = true) ->
  fetched (net (n + k)%nat) = Some data ->
  value (scrape_page net page 3 n) =
    rbind (_extract_anime_data data page) (fun recs => Ok (Some recs)) /\
  sent (scrape_page net page 3 n) = (n + k + 1)%nat /\
  exists pre, trace (scrape_page net page 3 n) = pre ++ [Get page].
Proof.
  intros Hk Hfail Hdata. unfold scrape_page.
  destruct (attempts_fetched_after net page 3 k 0 n data
              ltac:(lia) Hfail Hdata) as (Hv & Hs & _).
  split; [exact Hv |]. split; [exact Hs |].
  apply (served_trace_ends_with_get net page 3 k 0 n data);
    (lia || assumption).
Qed.

(** X9: the first served response ends the page: [scrape_page] returns
    what the extractor makes of its body, be it records or an exception,
    and the request is the last event of the page: an exception of the
    extractor is neither retried nor followed by a sleep, and the later
    responses are not asked for. *)
Theorem served_response_ends_the_page
  (net : network) page max_retries n k data :
  Z.of_nat k < max_retries ->
  (forall i, (i < k)%nat -> failed (net (n + i)%nat) = true) ->
  fetched (net (n + k)%nat) = Some data ->
  let r := scrape_page net page max_retries n in
  value r = match _extract_anime_data data page with
            | Ok recs => Ok (Some recs)
            | Raise e => Raise e
            end /\
  sent r = (n + k + 1)%nat /\
  exists pre, trace r = pre ++ [Get page].
Proof.
  intros Hk Hfail Hdata r. subst r. unfold scrape_page.
  destruct (attempts_fetched_after net page max_retries k 0 n data
              ltac:(lia) Hfail Hdata) as (Hv & Hs & _).
  split; [| split].
  - rewrite Hv. destruct (_extract_anime_data data page); reflexivity.
  - exact Hs.
  - apply (served_trace_ends_with_get net page max_retries k 0 n data);
      (lia || assumption).
Qed.

Lemma served_response_ends_the_page_witness :
  value (scrape_page net_null_genres 1 3 0%nat) = Raise TypeError /\
  sent (scrape_page net_null_genres 1 3 0%nat) = 1%nat /\
  exists pre, trace (scrape_page net_null_genres 1 3 0%nat) = pre ++ [Get 1].
Proof.
  refine (served_response_ends_the_page net_null_genres 1 3 0%nat 0%nat
            page_with_null_genres _ _ eq_refl).
  - lia.
  - intros i Hi. lia.
Defined.

(** X10: only 429 and the statuses 400 to 599 count as failures: a
    response with any other status (a 1xx or 3xx as much as a 2xx) and a
    decodable body is served at once, and a status from 400 to 599 other
    than 429 is a request error whatever the body holds. *)
Theorem status_outside_4xx_5xx_is_served
  (net : network) page max_retries n status_code :
  1 <= max_retries ->
  status_code <> 429 ->
  (forall data,
     net n = Reply status_code (Some data) ->
     status_code < 400 \/ 600 <= status_code ->
     scrape_page net page max_retries n =
       Run (rbind (_extract_anime_data data page) (fun recs => Ok (Some recs)))
           (S n) [Get page]) /\
  (forall body,
     net n = Reply status_code body ->
     400 <= status_code < 600 ->
     request_error (net n) = true /\
     attempt_events 0 (trace (scrape_page net page max_retries n)) =
       if 0 <? max_retries - 1
       then [Print (MsgAttemptFailed 1 page); Sleep (IntSecs 1)]
       else [Print (MsgAttemptFailed 1 page);
             Print (MsgGaveUp page max_retries)]).
Proof.
  intros Hmr Hne. apply Z.eqb_neq in Hne. split.
  - intros data Hnet Hstatus. unfold scrape_page.
    rewrite py_range_cons by lia.
    apply attempt_fetched. rewrite Hnet. simpl. rewrite Hne.
    unfold raises_for_status.
    destruct Hstatus as [Hs | Hs].
    + apply Z.ltb_lt in Hs.
      destruct (400 <=? status_code) eqn:E; [| reflexivity].
      apply Z.leb_le in E. apply Z.ltb_lt in Hs. lia.
    + destruct (status_code <? 600) eqn:E;
        [apply Z.ltb_lt in E; lia | rewrite andb_false_r; reflexivity].
  - intros body Hnet Hstatus.
    assert (Herr : request_error (net n) = true).
    { rewrite Hnet. simpl. rewrite Hne. unfold raises_for_status.
      destruct (Z.leb_spec 400 status_code); [| lia].
      destruct (Z.ltb_spec status_code 600); [| lia]. reflexivity. }
    split; [exact Herr |].
    unfold scrape_page.
    rewrite (attempt_events_failed net page max_retries 0 0 n) by
      (lia || (intros i Hi; replace i with 0%nat by lia;
               rewrite Nat.add_0_r; unfold failed; rewrite Herr;
               apply orb_true_r)).
    cbv zeta. rewrite Nat.add_0_r.
    destruct (rate_limited (net n)) eqn:Erl.
    + apply rate_limited_not_request_error in Erl. congruence.
    + reflexivity.
Qed.

Lemma status_outside_4xx_5xx_is_served_witness :
  scrape_page (script [Reply 304 (Some empty_page)] ConnectionFailed) 1 3 0%nat
    = Run (Ok (Some [])) 1%nat [Get 1] /\
  request_error
    (script [Reply 404 (Some (full_page 1))] ConnectionFailed 0%nat) = true.
Proof.
  split.
  - refine (proj1 (status_outside_4xx_5xx_is_served
                     (script [Reply 304 (Some empty_page)] ConnectionFailed)
                     1 3 0%nat 304 _ _) empty_page eq_refl _); lia.
  - refine (proj1 (proj2 (status_outside_4xx_5xx_is_served
                            (script [Reply 404 (Some (full_page 1))]
                                    ConnectionFailed)
                            1 3 0%nat 404 _ _)
                         (Some (full_page 1)) eq_refl _)); lia.
Defined.

(** ** The range loop: order, budget and pauses *)

(** X11: an empty range ([end_page < start_page]) returns the empty list
    without a request, a sleep or a line of output. *)
Theorem scrape_range_of_empty_range (net : network) start_page end_page delay c :
  end_page < start_page ->
  scrape_range net start_page end_page delay c = Run (Ok []) c [].
Proof.
  intro H. unfold scrape_range. rewrite py_range_nil by lia. reflexivity.
Qed.

Lemma scrape_range_of_empty_range_witness :
  scrape_range net_page2_exhausted 5 4 DELAY_BETWEEN_REQUESTS 0%nat
    = Run (Ok []) 0%nat [].
Proof.
  exact (scrape_range_of_empty_range _ 5 4 _ 0%nat ltac:(lia)).
Defined.

Lemma sorted_app (R : Z -> Z -> Prop) l1 l2 :
  StronglySorted R l1 -> StronglySorted R l2 ->
  (forall x y, In x l1 -> In y l2 -> R x y) ->
  StronglySorted R (l1 ++ l2).
Proof.
  intros H1 H2 Hcross. induction H1 as [| x l1 H1 IH Hx]; simpl.
  - exact H2.
  - constructor.
    + apply IH. intros a b Ha Hb. apply Hcross; [right; exact Ha | exact Hb].
    + apply Forall_app. split; [exact Hx |].
      apply Forall_forall. intros y Hy. apply Hcross; [left; reflexivity | exact Hy].
Qed.

Lemma constant_sorted page l :
  Forall (eq page) l -> StronglySorted Z.le l.
Proof.
  intro H. induction l as [| x l IH]; constructor.
  - apply IH. inversion H; assumption.
  - inversion H as [| ? ? Hx Hl]; subst.
    eapply Forall_impl; [| exact Hl]. intros y <-. lia.
Qed.

Lemma py_range_sorted lo hi : StronglySorted Z.lt (py_range lo hi).
Proof.
  remember (Z.to_nat (hi - lo)) as k eqn:Ek.
  revert lo Ek. induction k as [| k IH]; intros lo Ek.
  - rewrite py_range_nil by lia. constructor.
  - rewrite py_range_cons by lia. constructor.
    + apply IH. lia.
    + apply Forall_forall. intros x Hx. apply in_py_range in Hx. lia.
Qed.

Lemma loop_requests_sorted (net : network) end_page delay pages :
  StronglySorted Z.lt pages ->
  forall all_data n,
    StronglySorted Z.le
      (requests (trace (scrape_range_loop net end_page delay pages all_data n))).
Proof.
  induction 1 as [| page rest Hrest IH Hpage]; intros all_data n.
  - constructor.
  - rewrite scrape_range_loop_cons. unfold bind.
    pose proof (step_trace net end_page delay page all_data n) as (Hreq & _).
    pose proof (scrape_page_requests net page 3 n) as Hsame.
    rewrite <- Hreq in Hsame.
    destruct (value (scrape_range_step net end_page delay page all_data n));
      cbn [trace]; [| apply (constant_sorted page), Hsame].
    rewrite requests_app. apply sorted_app.
    + apply (constant_sorted page), Hsame.
    + apply IH.
    + intros x y Hx Hy.
      rewrite Forall_forall in Hsame. rewrite <- (Hsame x Hx).
      pose proof (loop_requests net end_page delay rest a
                    (sent (scrape_range_step net end_page delay page all_data n)))
        as Hin.
      rewrite Forall_forall in Hin, Hpage.
      specialize (Hpage y (Hin y Hy)). lia.
Qed.

(** X12: the pages are requested in ascending order: in the trace of a
    run no request is for a page below the page of an earlier request, so
    a failure never sends the scraper back to a page it has left. *)
Theorem pages_are_requested_in_order (net : network) start_page end_page delay c :
  StronglySorted Z.le
    (requests (trace (scrape_range net start_page end_page delay c))).
Proof.
  unfold scrape_range. apply loop_requests_sorted, py_range_sorted.
Qed.

Lemma py_range_length lo hi : List.length (py_range lo hi) = Z.to_nat (hi - lo).
Proof. unfold py_range. rewrite length_map, length_seq. reflexivity. Qed.

Lemma scrape_page_request_budget_aux (net : network) page n :
  exists k,
    sent (scrape_page net page 3 n) = (n + k)%nat /\
    (1 <= k)%nat /\ (k <= 3)%nat /\
    List.length (requests (trace (scrape_page net page 3 n))) = k.
Proof.
  destruct (scrape_page_outcome net page 3 n)
    as [(_ & Hs & Hr & _) | [(k & data & Hk & _ & _ & _ & Hs & Hr)
                             | (k & e & Hk & _ & _ & _ & Hs & Hr)]].
  - exists 3%nat. rewrite Hs, Hr, repeat_length.
    repeat split; simpl; lia.
  - exists (k + 1)%nat. rewrite Hs, Hr, repeat_length.
    simpl in Hk. repeat split; lia.
  - exists (k + 1)%nat. rewrite Hs, Hr, repeat_length.
    simpl in Hk. repeat split; lia.
Qed.

Lemma loop_budget (net : network) end_page delay pages :
  forall all_data n,
    let r := scrape_range_loop net end_page delay pages all_data n in
    exists k,
      sent r = (n + k)%nat /\ (k <= 3 * List.length pages)%nat /\
      List.length (requests (trace r)) = k /\
      (forall out, value r = Ok out -> (List.length pages <= k)%nat).
Proof.
  induction pages as [| page rest IH]; intros all_data n; cbv zeta.
  - exists 0%nat. simpl. repeat split; lia.
  - rewrite scrape_range_loop_cons. unfold bind.
    pose proof (step_trace net end_page delay page all_data n)
      as (Hreq & Hsent & _).
    pose proof (scrape_page_request_budget_aux net page n) as (k1 & Hk1 & Hlo & Hhi & Hlen).
    rewrite <- Hsent in Hk1. rewrite <- Hreq in Hlen.
    destruct (value (scrape_range_step net end_page delay page all_data n))
      as [acc' | e]; cbn [value sent trace].
    + destruct (IH acc' (sent (scrape_range_step net end_page delay page
                                 all_data n))) as (k2 & Hs2 & Hb2 & Hl2 & Hok2).
      exists (k1 + k2)%nat. rewrite Hs2, requests_app, length_app, Hlen, Hl2.
      cbn [List.length]. repeat split; try lia.
      intros out Hout. specialize (Hok2 out Hout). lia.
    + exists k1. cbn [List.length]. repeat split; try lia. discriminate.
Qed.

(** X13: a run over [n] pages sends at most [3 * n] requests, and at
    least [n] when it returns: every page is asked for at least once and
    at most three times. *)
Theorem scrape_range_request_budget (net : network) start_page end_page delay c :
  let r := scrape_range net start_page end_page delay c in
  let pages := Z.to_nat (end_page + 1 - start_page) in
  (c <= sent r <= c + 3 * pages)%nat /\
  List.length (requests (trace r)) = (sent r - c)%nat /\
  (forall out, value r = Ok out -> (c + pages <= sent r)%nat).
Proof.
  cbv zeta. unfold scrape_range.
  destruct (loop_budget net end_page delay
              (py_range start_page (end_page + 1)) [] c)
    as (k & Hs & Hb & Hl & Hok).
  rewrite py_range_length in Hb, Hok. rewrite Hs, Hl.
  repeat split; try lia.
  intros out Hout. specialize (Hok out Hout). lia.
Qed.

Lemma scrape_range_request_budget_witness :
  (0 + Z.to_nat (3 + 1 - 1) <=
   sent (scrape_range net_page2_exhausted 1 3 DELAY_BETWEEN_REQUESTS 0%nat))%nat.
Proof.
  refine (proj2 (proj2 (scrape_range_request_budget net_page2_exhausted 1 3
                          DELAY_BETWEEN_REQUESTS 0%nat)) _ _).
  vm_compute. reflexivity.
Defined.





Lemma loop_announced (net : network) end_page delay pages :
  forall all_data n out,
    value (scrape_range_loop net end_page delay pages all_data n) = Ok out ->
    announced (trace (scrape_range_loop net end_page delay pages all_data n))
      = pages.
Proof.
  induction pages as [| page rest IH]; intros all_data n out Hout.
  - reflexivity.
  - rewrite scrape_range_loop_cons in *. unfold bind in *.
    pose proof (step_trace net end_page delay page all_data n) as (_ & _ & Hann).
    destruct (value (scrape_range_step net end_page delay page all_data n))
      as [acc' | e]; cbn [value trace] in *; [| discriminate].
    rewrite announced_app, (Hann acc' eq_refl), (IH _ _ _ Hout). reflexivity.
Qed.

(** X15: an exception of the extractor aborts the whole run: when a page
    is served with a body on which extraction raises, [scrape_range]
    raises the same exception instead of returning the records of the
    earlier pages, and that page's request is its last event: no later
    page is announced or requested. *)
Theorem extraction_error_aborts_the_run
  (net : network) start_page end_page delay c p k data e acc :
  start_page <= p <= end_page ->
  let before :=
    scrape_range_loop net end_page delay (py_range start_page p) [] c in
  value before = Ok acc ->
  (k < 3)%nat ->
  (forall i, (i < k)%nat -> failed (net (sent before + i)%nat) = true) ->
  fetched (net (sent before + k)%nat) = Some data ->
  _extract_anime_data data p = Raise e ->
  let r := scrape_range net start_page end_page delay c in
  value r = Raise e /\
  sent r = (sent before + k + 1)%nat /\
  announced (trace r) = py_range start_page (p + 1) /\
  exists pre, trace r = pre ++ [Get p].
Proof.
  intros Hp before Hacc Hk Hfail Hdata Hraise r.
  destruct (served_response_ends_the_page_aux net p (sent before) k data
              Hk Hfail Hdata) as (Hv & Hs & pre & Ht).
  rewrite Hraise in Hv. cbn [rbind] in Hv.
  assert (Hsplit : py_range start_page (end_page + 1) =
                   py_range start_page p ++ p :: py_range (p + 1) (end_page + 1)).
  { rewrite (py_range_app start_page p (end_page + 1)) by lia.
    rewrite (py_range_cons p) by lia. reflexivity. }
  assert (Hrun : r = Run (Raise e) (sent before + k + 1)%nat
                         (trace before ++
                          Print (MsgScraping p end_page) :: pre ++ [Get p])).
  { subst r. unfold scrape_range. rewrite Hsplit, scrape_range_loop_app.
    unfold bind at 1. fold before. rewrite Hacc.
    rewrite scrape_range_loop_cons. unfold bind.
    rewrite scrape_range_step_run. cbv zeta. rewrite Hv, Hs, Ht.
    reflexivity. }
  rewrite Hrun. cbn [value sent trace]. repeat split.
  - rewrite announced_app. subst before.
    rewrite (loop_announced _ _ _ _ _ _ _ Hacc).
    cbn [announced].
    rewrite <- Ht. unfold scrape_page. rewrite attempts_announce_nothing.
    rewrite (py_range_app start_page p (p + 1)) by lia.
    rewrite (py_range_cons p), (py_range_nil (p + 1)) by lia. reflexivity.
  - exists (trace before ++ Print (MsgScraping p end_page) :: pre).
    rewrite <- app_assoc. reflexivity.
Qed.

Lemma extraction_error_aborts_the_run_witness :
  value (scrape_range net_page2_malformed 1 3 DELAY_BETWEEN_REQUESTS 0%nat)
    = Raise TypeError /\
  sent (scrape_range net_page2_malformed 1 3 DELAY_BETWEEN_REQUESTS 0%nat)
    = (1 + 0 + 1)%nat /\
  announced (trace (scrape_range net_page2_malformed 1 3
                      DELAY_BETWEEN_REQUESTS 0%nat)) = py_range 1 (2 + 1) /\
  exists pre,
    trace (scrape_range net_page2_malformed 1 3 DELAY_BETWEEN_REQUESTS 0%nat)
      = pre ++ [Get 2].
Proof.
  refine (extraction_error_aborts_the_run net_page2_malformed 1 3
            DELAY_BETWEEN_REQUESTS 0%nat 2 0%nat page_with_null_genres
            TypeError (collected net_page2_malformed [1] 0%nat)
            _ _ _ _ _ _).
  - lia.
  - vm_compute. reflexivity.
  - lia.
  - intros i Hi. lia.
  - reflexivity.
  - reflexivity.
Defined.

(** ** Identifiers across a run *)






(** ** The sample display *)


(** The title line of a text: the text itself when it has at most 60
    characters, else its first 60 characters and the ellipsis. *)
Lemma title_line_of_text s :
  title_line (JStr s) =
    if 60 <? Z.of_nat (List.length (code_points s))
    then Ok (SampleTitle (JStr (text_of (firstn 60 (code_points s)))) true)
    else Ok (SampleTitle (JStr s) false).
Proof.
  unfold title_line. cbn [py_len rbind].
  destruct (60 <? Z.of_nat (List.length (code_points s))); reflexivity.
Qed.

Lemma title_line_text s :
  exists shown ellipsis,
    title_line (JStr s) = Ok (SampleTitle shown ellipsis) /\
    short_text shown = true.
Proof.
  rewrite title_line_of_text.
  destruct (Z.ltb_spec 60 (Z.of_nat (List.length (code_points s)))).
  - eexists _, _. split; [reflexivity |]. cbn [short_text].
    rewrite code_points_prefix. apply Nat.leb_le.
    rewrite length_firstn. lia.
  - eexists _, _. split; [reflexivity |]. cbn [short_text].
    apply Nat.leb_le. lia.
Qed.




(** A title of 28 Japanese characters, 84 bytes long, is shown whole; of
    a title of 61 accented letters the first 60 are shown, followed by the
    ellipsis. *)
Example display_counts_characters :
  String.length japanese_title = 84%nat /\
  title_line (JStr japanese_title) = Ok (SampleTitle (JStr japanese_title) false) /\
  String.length accented_title = 122%nat /\
  title_line (JStr accented_title) =
    Ok (SampleTitle
          (JStr (text_of
                   (repeat (String (ascii_of_nat 195)
                              (String (ascii_of_nat 169) EmptyString)) 60)))
          true).
Proof. repeat split. Qed.

Lemma display_samples_raise pre anime post :
  forallb has_text_title pre = true ->
  is_scalar (title anime) = true ->
  forall i,
    fst (display_samples i (pre ++ anime :: post)) = Raise TypeError /\
    exists out,
      snd (display_samples i (pre ++ anime :: post)) =
        out ++ [SampleNumber (i + Z.of_nat (List.length pre) + 1);
                SampleId (reset_id anime)].
Proof.
  intros Hpre Hnull.
  induction pre as [| a rest IH]; intro i.
  - cbn [app display_samples].
    assert (E : title_line (title anime) = Raise TypeError).
    { destruct (title anime); try discriminate Hnull; reflexivity. }
    rewrite E. simpl. split; [reflexivity |].
    exists []. rewrite Z.add_0_r. reflexivity.
  - simpl in Hpre. apply andb_true_iff in Hpre. destruct Hpre as [Ha Hrest].
    unfold has_text_title in Ha.
    cbn [app display_samples].
    destruct (title a) as [| | | | s | |]; try discriminate Ha.
    destruct (title_line_text s) as (shown & ellipsis & -> & _).
    destruct (IH Hrest (i + 1)) as (Hv & out & Hout).
    destruct (display_samples (i + 1) (rest ++ anime :: post)) as [v o].
    cbn [fst snd] in *. split; [exact Hv |].
    rewrite Hout. eexists (_ :: _ :: _ :: _ :: _ :: out).
    cbn [app List.length].
    replace (i + 1 + Z.of_nat (List.length rest) + 1)
      with (i + Z.of_nat (S (List.length rest)) + 1) by lia.
    reflexivity.
Qed.

Lemma display_sample_data_raise pre anime post sample_size :
  Z.of_nat (List.length pre) < sample_size ->
  forallb has_text_title pre = true ->
  is_scalar (title anime) = true ->
  fst (display_sample_data (pre ++ anime :: post) sample_size)
    = Raise TypeError /\
  exists out,
    snd (display_sample_data (pre ++ anime :: post) sample_size) =
      out ++ [SampleNumber (Z.of_nat (List.length pre) + 1);
              SampleId (reset_id anime)].
Proof.
  intros Hlen Hpre Hnull.
  assert (Hslice : exists post',
             py_slice_to sample_size (pre ++ anime :: post)
               = pre ++ anime :: post').
  { unfold py_slice_to. destruct (Z.ltb_spec sample_size 0); [lia |].
    exists (firstn (Z.to_nat sample_size - S (List.length pre)) post).
    rewrite firstn_app.
    rewrite firstn_all2 by lia.
    replace (Z.to_nat sample_size - List.length pre)%nat
      with (S (Z.to_nat sample_size - S (List.length pre))) by lia.
    reflexivity. }
  destruct Hslice as (post' & Hslice).
  unfold display_sample_data. rewrite Hslice.
  destruct (display_samples_raise pre anime post' Hpre Hnull 0)
    as (Hv & out & Hout).
  destruct (display_samples 0 (pre ++ anime :: post')) as [v o].
  simpl in *. split; [exact Hv |].
  rewrite Hout. exists (SampleHeader sample_size :: SampleRule :: out).
  reflexivity.
Qed.

Lemma display_samples_raise_first_three pre anime post :
  (List.length pre < 3)%nat ->
  forallb has_text_title pre = true ->
  is_scalar (title anime) = true ->
  fst (display_sample_data (pre ++ anime :: post) 3) = Raise TypeError.
Proof.
  intros Hlen Hpre Hnull.
  apply (display_sample_data_raise pre anime post 3); (lia || assumption).
Qed.



(** ** The main function *)

Lemma saves_app l1 l2 : saves (l1 ++ l2) = saves l1 ++ saves l2.
Proof.
  induction l1 as [| [] rest IH]; simpl; rewrite ?IH; reflexivity.
Qed.

Lemma saves_scraping evs : saves (map Scraping evs) = [].
Proof. induction evs as [| e rest IH]; simpl; auto. Qed.

Lemma saves_show lines : saves (map Show lines) = [].
Proof. induction lines as [| l rest IH]; simpl; auto. Qed.

Lemma main_requests_app l1 l2 :
  main_requests (l1 ++ l2) = main_requests l1 ++ main_requests l2.
Proof.
  induction l1 as [| [[] | | | | |] rest IH]; simpl; rewrite ?IH; reflexivity.
Qed.

Lemma main_requests_scraping evs : main_requests (map Scraping evs) = requests evs.
Proof.
  induction evs as [| [] rest IH]; simpl; rewrite ?IH; reflexivity.
Qed.

Lemma main_requests_show lines : main_requests (map Show lines) = [].
Proof. induction lines as [| l rest IH]; simpl; auto. Qed.

Lemma scrape_range_collects (net : network) start_page end_page delay c :
  (forall m data, fetched (net m) = Some data -> wf_page data = true) ->
  (forall m, refused (net m) = None) ->
  value (scrape_range net start_page end_page delay c) =
    Ok (collected net (py_range start_page (end_page + 1)) c).
Proof.
  intros Hwf Hdec.
  exact (proj1 (loop_collects net end_page delay Hwf Hdec
                  (py_range start_page (end_page + 1)) [] c)).
Qed.

Lemma and_then_ok {L} u (l : list L) (b : console L) :
  and_then (Ok u, l) b = (fst b, l ++ snd b).
Proof. reflexivity. Qed.

Lemma and_then_raise {L} e (l : list L) (b : console L) :
  and_then (Raise e, l) b = (Raise e, l).
Proof. reflexivity. Qed.

Lemma save_to_csv_ok fs data filename :
  write_csv fs filename data = Ok tt ->
  save_to_csv fs data filename =
    (Ok tt, [SaveCsv filename data; Say (MainCsvSaved filename)]).
Proof. unfold save_to_csv. intros ->. reflexivity. Qed.

Lemma save_to_csv_raise fs data filename e :
  write_csv fs filename data = Raise e ->
  save_to_csv fs data filename = (Raise e, [SaveCsv filename data]).
Proof. unfold save_to_csv. intros ->. reflexivity. Qed.

Lemma save_to_json_ok fs data filename :
  write_json fs filename data = Ok tt ->
  save_to_json fs data filename =
    (Ok tt, [SaveJson filename data; Say (MainJsonSaved filename)]).
Proof. unfold save_to_json. intros ->. reflexivity. Qed.

Lemma save_to_json_raise fs data filename e :
  write_json fs filename data = Raise e ->
  save_to_json fs data filename = (Raise e, [SaveJson filename data]).
Proof. unfold save_to_json. intros ->. reflexivity. Qed.

(** The branch of [main] that saves, by what the file system does. *)
Lemma main_with_data_saved fs data elapsed_time timestamp :
  makedirs fs "output" = Ok tt ->
  write_csv fs ("output/anime_list_" ++ timestamp ++ ".csv")%string data
    = Ok tt ->
  write_json fs ("output/anime_list_" ++ timestamp ++ ".json")%string data
    = Ok tt ->
  main_with_data fs data elapsed_time timestamp =
    (fst (display_sample_data data 3),
     [Say MainRuleAfter; Say MainCompleted; Say (MainTotal (List.length data));
      Say (MainElapsed elapsed_time)] ++
     [MakeDirs "output";
      SaveCsv ("output/anime_list_" ++ timestamp ++ ".csv")%string data;
      Say (MainCsvSaved ("output/anime_list_" ++ timestamp ++ ".csv")%string);
      SaveJson ("output/anime_list_" ++ timestamp ++ ".json")%string data;
      Say (MainJsonSaved ("output/anime_list_" ++ timestamp ++ ".json")%string)] ++
     map Show (snd (display_sample_data data 3))).
Proof.
  intros Hdir Hcsv Hjson. unfold main_with_data.
  rewrite Hdir, (save_to_csv_ok _ _ _ Hcsv), (save_to_json_ok _ _ _ Hjson).
  rewrite !and_then_ok. reflexivity.
Qed.

Lemma main_with_data_no_directory fs data elapsed_time timestamp e :
  makedirs fs "output" = Raise e ->
  main_with_data fs data elapsed_time timestamp =
    (Raise e,
     [Say MainRuleAfter; Say MainCompleted; Say (MainTotal (List.length data));
      Say (MainElapsed elapsed_time)] ++ [MakeDirs "output"]).
Proof.
  intros Hdir. unfold main_with_data.
  rewrite Hdir, and_then_ok, and_then_raise. reflexivity.
Qed.

Lemma main_with_data_no_csv fs data elapsed_time timestamp e :
  makedirs fs "output" = Ok tt ->
  write_csv fs ("output/anime_list_" ++ timestamp ++ ".csv")%string data
    = Raise e ->
  main_with_data fs data elapsed_time timestamp =
    (Raise e,
     [Say MainRuleAfter; Say MainCompleted; Say (MainTotal (List.length data));
      Say (MainElapsed elapsed_time); MakeDirs "output"] ++
     [SaveCsv ("output/anime_list_" ++ timestamp ++ ".csv")%string data]).
Proof.
  intros Hdir Hcsv. unfold main_with_data.
  rewrite Hdir, (save_to_csv_raise _ _ _ _ Hcsv).
  rewrite !and_then_ok, and_then_raise. reflexivity.
Qed.

Lemma main_with_data_no_json fs data elapsed_time timestamp e :
  makedirs fs "output" = Ok tt ->
  write_csv fs ("output/anime_list_" ++ timestamp ++ ".csv")%string data
    = Ok tt ->
  write_json fs ("output/anime_list_" ++ timestamp ++ ".json")%string data
    = Raise e ->
  main_with_data fs data elapsed_time timestamp =
    (Raise e,
     [Say MainRuleAfter; Say MainCompleted; Say (MainTotal (List.length data));
      Say (MainElapsed elapsed_time); MakeDirs "output";
      SaveCsv ("output/anime_list_" ++ timestamp ++ ".csv")%string data;
      Say (MainCsvSaved ("output/anime_list_" ++ timestamp ++ ".csv")%string)] ++
     [SaveJson ("output/anime_list_" ++ timestamp ++ ".json")%string data]).
Proof.
  intros Hdir Hcsv Hjson. unfold main_with_data.
  rewrite Hdir, (save_to_csv_ok _ _ _ Hcsv), (save_to_json_raise _ _ _ _ Hjson).
  rewrite !and_then_ok, and_then_raise. reflexivity.
Qed.

(** The saving branch sends no request. *)
Lemma main_with_data_requests fs data elapsed_time timestamp :
  main_requests (snd (main_with_data fs data elapsed_time timestamp)) = [].
Proof.
  destruct (makedirs fs "output") as [[] | e] eqn:Hdir;
    [| rewrite (main_with_data_no_directory _ _ _ _ _ Hdir); reflexivity].
  destruct (write_csv fs ("output/anime_list_" ++ timestamp ++ ".csv")%string
              data) as [[] | e] eqn:Hcsv;
    [| rewrite (main_with_data_no_csv _ _ _ _ _ Hdir Hcsv); reflexivity].
  destruct (write_json fs ("output/anime_list_" ++ timestamp ++ ".json")%string
              data) as [[] | e] eqn:Hjson;
    [| rewrite (main_with_data_no_json _ _ _ _ _ Hdir Hcsv Hjson); reflexivity].
  rewrite (main_with_data_saved _ _ _ _ Hdir Hcsv Hjson). cbn [snd].
  rewrite !main_requests_app, main_requests_show. reflexivity.
Qed.

(** The three ways [main] ends, by what the scraper returned. *)
Lemma main_run fs (net : network) start_time end_time timestamp :
  let r := scrape_range net START_PAGE END_PAGE DELAY_BETWEEN_REQUESTS 0%nat in
  let opening :=
    Say MainBanner :: Say MainRule :: Say (MainPages START_PAGE END_PAGE) ::
    map Scraping (trace r) in
  main fs net start_time end_time timestamp =
    match value r with
    | Raise e => (Raise e, opening)
    | Ok [] => (Ok tt, opening ++ [Say MainNoData])
    | Ok data =>
        (fst (main_with_data fs data (end_time - start_time)%float timestamp),
         opening ++
         snd (main_with_data fs data (end_time - start_time)%float timestamp))
    end.
Proof. reflexivity. Qed.

(** X19: when every request fails, [main] ends normally without
    touching the file system: no directory is created and no file is
    written, and its last line says that no data was scraped. *)
Theorem main_without_data_writes_nothing
  fs (net : network) start_time end_time timestamp :
  (forall m, failed (net m) = true) ->
  fst (main fs net start_time end_time timestamp) = Ok tt /\
  saves (snd (main fs net start_time end_time timestamp)) = [] /\
  exists pre,
    snd (main fs net start_time end_time timestamp) = pre ++ [Say MainNoData].
Proof.
  intro Hfail.
  assert (Hwf : forall m data, fetched (net m) = Some data ->
                               wf_page data = true).
  { intros m data H. apply fetched_not_failed in H.
    rewrite Hfail in H. discriminate. }
  assert (Hdec : forall m, refused (net m) = None).
  { intro m. apply failed_not_refused, Hfail. }
  pose proof (scrape_range_collects net START_PAGE END_PAGE
                DELAY_BETWEEN_REQUESTS 0%nat Hwf Hdec) as Hv.
  rewrite collected_all_failed in Hv by assumption.
  rewrite main_run. cbv zeta.
  remember (scrape_range net START_PAGE END_PAGE DELAY_BETWEEN_REQUESTS 0%nat)
    as r eqn:Er.
  clear Er. rewrite Hv. cbn [fst snd].
  split; [reflexivity |]. split.
  - rewrite saves_app. cbn [saves]. rewrite saves_scraping. reflexivity.
  - exists (Say MainBanner :: Say MainRule ::
            Say (MainPages START_PAGE END_PAGE) :: map Scraping (trace r)).
    reflexivity.
Qed.

Lemma main_without_data_writes_nothing_witness :
  fst (main fs_read_only net_down 0%float 1%float "20240101_000000") = Ok tt /\
  saves (snd (main fs_read_only net_down 0%float 1%float "20240101_000000"))
    = [] /\
  exists pre,
    snd (main fs_read_only net_down 0%float 1%float "20240101_000000")
      = pre ++ [Say MainNoData].
Proof.
  apply (main_without_data_writes_nothing fs_read_only net_down).
  intro m. reflexivity.
Defined.

(** X20: when the fetched bodies decode and are well formed, some record
    was scraped and the file system accepts the directory and both files,
    [main] creates the directory ["output"] and hands the same records,
    all those the pages returned, to [save_to_csv] and then to
    [save_to_json], under file names that share the time stamp; both
    saves come before the sample display, and [main] ends as the display
    ends. *)
Theorem main_saves_what_it_scraped
  fs (net : network) start_time end_time timestamp :
  (forall m data, fetched (net m) = Some data -> wf_page data = true) ->
  (forall m, refused (net m) = None) ->
  let data := collected net (py_range START_PAGE (END_PAGE + 1)) 0%nat in
  let csv_filename := ("output/anime_list_" ++ timestamp ++ ".csv")%string in
  let json_filename := ("output/anime_list_" ++ timestamp ++ ".json")%string in
  data <> [] ->
  makedirs fs "output" = Ok tt ->
  write_csv fs csv_filename data = Ok tt ->
  write_json fs json_filename data = Ok tt ->
  saves (snd (main fs net start_time end_time timestamp)) =
    [MakeDirs "output"; SaveCsv csv_filename data;
     SaveJson json_filename data] /\
  fst (main fs net start_time end_time timestamp)
    = fst (display_sample_data data 3) /\
  exists pre,
    snd (main fs net start_time end_time timestamp) =
      pre ++
      [MakeDirs "output";
       SaveCsv csv_filename data; Say (MainCsvSaved csv_filename);
       SaveJson json_filename data; Say (MainJsonSaved json_filename)] ++
      map Show (snd (display_sample_data data 3)).
Proof.
  intros Hwf Hdec data csv_filename json_filename Hdata Hdir Hcsv Hjson.
  subst csv_filename json_filename.
  pose proof (scrape_range_collects net START_PAGE END_PAGE
                DELAY_BETWEEN_REQUESTS 0%nat Hwf Hdec) as Hv.
  fold data in Hv.
  pose proof (main_with_data_saved fs data (end_time - start_time)%float
                timestamp Hdir Hcsv Hjson) as Hsaved.
  rewrite main_run. cbv zeta.
  clearbody data.
  remember (scrape_range net START_PAGE END_PAGE DELAY_BETWEEN_REQUESTS 0%nat)
    as r eqn:Er.
  clear Er. rewrite Hv.
  destruct data as [| a l]; [contradiction |].
  rewrite Hsaved. cbn [fst snd]. split; [| split; [reflexivity |]].
  - rewrite !saves_app. cbn [saves].
    rewrite saves_scraping, saves_show. reflexivity.
  - exists ((Say MainBanner :: Say MainRule ::
             Say (MainPages START_PAGE END_PAGE) :: map Scraping (trace r)) ++
            [Say MainRuleAfter; Say MainCompleted;
             Say (MainTotal (List.length (a :: l)));
             Say (MainElapsed (end_time - start_time)%float)]).
    rewrite <- app_assoc. reflexivity.
Qed.

Lemma main_saves_what_it_scraped_witness :
  saves (snd (main fs_ok net_page1_then_down 0%float 1.5%float
                "20240101_000000")) =
    [MakeDirs "output";
     SaveCsv "output/anime_list_20240101_000000.csv"
       (collected net_page1_then_down (py_range START_PAGE (END_PAGE + 1)) 0%nat);
     SaveJson "output/anime_list_20240101_000000.json"
       (collected net_page1_then_down (py_range START_PAGE (END_PAGE + 1)) 0%nat)].
Proof.
  refine (proj1 (main_saves_what_it_scraped fs_ok net_page1_then_down
                   0%float 1.5%float "20240101_000000" _ _ _ _ _ _)).
  - intros m data. destruct m as [| m]; simpl.
    + intro E. injection E as <-. reflexivity.
    + destruct m; discriminate.
  - apply script_never_refused; repeat constructor.
  - vm_compute. discriminate.
  - reflexivity.
  - reflexivity.
  - reflexivity.
Defined.

(** X21: the files are written before the sample is shown: when the file
    system accepts both files and one of the first three records has no
    text for a title, [main] still saves both files and then ends with
    the [TypeError] of the display. *)
Theorem main_fails_after_saving
  fs (net : network) start_time end_time timestamp pre anime post :
  (forall m data, fetched (net m) = Some data -> wf_page data = true) ->
  (forall m, refused (net m) = None) ->
  collected net (py_range START_PAGE (END_PAGE + 1)) 0%nat
    = pre ++ anime :: post ->
  (List.length pre < 3)%nat ->
  forallb has_text_title pre = true ->
  is_scalar (title anime) = true ->
  makedirs fs "output" = Ok tt ->
  write_csv fs ("output/anime_list_" ++ timestamp ++ ".csv")%string
    (pre ++ anime :: post) = Ok tt ->
  write_json fs ("output/anime_list_" ++ timestamp ++ ".json")%string
    (pre ++ anime :: post) = Ok tt ->
  fst (main fs net start_time end_time timestamp) = Raise TypeError /\
  saves (snd (main fs net start_time end_time timestamp)) =
    [MakeDirs "output";
     SaveCsv ("output/anime_list_" ++ timestamp ++ ".csv")%string
       (pre ++ anime :: post);
     SaveJson ("output/anime_list_" ++ timestamp ++ ".json")%string
       (pre ++ anime :: post)].
Proof.
  intros Hwf Hdec Hdata Hlen Hpre Hnull Hdir Hcsv Hjson.
  pose proof (scrape_range_collects net START_PAGE END_PAGE
                DELAY_BETWEEN_REQUESTS 0%nat Hwf Hdec) as Hv.
  rewrite Hdata in Hv.
  pose proof (display_samples_raise_first_three pre anime post Hlen Hpre Hnull)
    as Hshow.
  pose proof (main_with_data_saved fs (pre ++ anime :: post)
                (end_time - start_time)%float timestamp Hdir Hcsv Hjson)
    as Hsaved.
  rewrite main_run. cbv zeta.
  remember (scrape_range net START_PAGE END_PAGE DELAY_BETWEEN_REQUESTS 0%nat)
    as r eqn:Er.
  clear Er Hdata. rewrite Hv.
  destruct (pre ++ anime :: post) as [| a l] eqn:E;
    [destruct pre; discriminate E |].
  rewrite Hsaved. cbn [fst snd]. split; [exact Hshow |].
  rewrite !saves_app. cbn [saves].
  rewrite saves_scraping, saves_show. reflexivity.
Qed.

Lemma main_fails_after_saving_witness :
  fst (main fs_ok net_untitled_then_down 0%float 1%float "20240101_000000")
    = Raise TypeError /\
  exists data,
    saves (snd (main fs_ok net_untitled_then_down 0%float 1%float
                  "20240101_000000")) =
      [MakeDirs "output";
       SaveCsv "output/anime_list_20240101_000000.csv" data;
       SaveJson "output/anime_list_20240101_000000.json" data].
Proof.
  pose proof (main_fails_after_saving fs_ok net_untitled_then_down
                0%float 1%float "20240101_000000" []
                {| reset_id := 1; title := JNull; score := JFloat 7.5%float;
                   scored_by := JNull; rank := JNull; popularity := JNull;
                   members := JNull; favorites := JNull; genres := "" |} [])
    as H.
  assert (Hwf : forall m data, fetched (net_untitled_then_down m) = Some data ->
                               wf_page data = true).
  { intros m data. destruct m as [| m]; simpl.
    - intro E. injection E as <-. reflexivity.
    - destruct m; discriminate. }
  assert (Hdec : forall m, refused (net_untitled_then_down m) = None).
  { apply script_never_refused; repeat constructor. }
  specialize (H Hwf Hdec ltac:(vm_compute; reflexivity) ltac:(simpl; lia)
                eq_refl eq_refl eq_refl eq_refl eq_refl).
  split; [exact (proj1 H) |].
  eexists. exact (proj2 H).
Defined.

Lemma main_requests_of_run fs (net : network) start_time end_time timestamp :
  main_requests (snd (main fs net start_time end_time timestamp)) =
    requests (trace (scrape_range net START_PAGE END_PAGE
                       DELAY_BETWEEN_REQUESTS 0%nat)).
Proof.
  rewrite main_run. cbv zeta.
  remember (scrape_range net START_PAGE END_PAGE DELAY_BETWEEN_REQUESTS 0%nat)
    as r eqn:Er.
  clear Er.
  destruct (value r) as [[| a l] | e]; cbn [snd].
  - rewrite main_requests_app. cbn [main_requests].
    rewrite main_requests_scraping. apply app_nil_r.
  - rewrite main_requests_app, main_with_data_requests.
    cbn [main_requests].
    rewrite main_requests_scraping. apply app_nil_r.
  - cbn [main_requests]. apply main_requests_scraping.
Qed.

(** X22: whatever the server answers and the file system does, [main]
    sends at most 3540 requests (three for each of the pages 1 to 1180),
    asks for no page outside 1..1180, and asks for the pages in ascending
    order. *)
Theorem main_request_budget
  fs (net : network) start_time end_time timestamp :
  let asked :=
    main_requests (snd (main fs net start_time end_time timestamp)) in
  (List.length asked <= 3540)%nat /\
  Forall (fun q => 1 <= q <= 1180) asked /\
  StronglySorted Z.le asked.
Proof.
  cbv zeta. rewrite main_requests_of_run. unfold scrape_range.
  generalize (py_range_length START_PAGE (END_PAGE + 1)).
  generalize (fun x => proj1 (in_py_range x START_PAGE (END_PAGE + 1))).
  generalize (py_range_sorted START_PAGE (END_PAGE + 1)).
  generalize (py_range START_PAGE (END_PAGE + 1)).
  intros pages Hsorted Hin Hlen.
  destruct (loop_budget net END_PAGE DELAY_BETWEEN_REQUESTS pages [] 0%nat)
    as (k & _ & Hk & Hreq & _).
  split; [| split].
  - rewrite Hreq. unfold START_PAGE, END_PAGE in Hlen. lia.
  - eapply Forall_impl; [| apply loop_requests].
    intros q Hq. apply Hin in Hq. unfold START_PAGE, END_PAGE in Hq. lia.
  - apply loop_requests_sorted, Hsorted.
Qed.

(** X23: a save that fails ends [main] with the exception of the file
    system or of the encoder, and what comes after it is not done: when
    the directory cannot be created no file is written; when the CSV
    file cannot be written, [save_to_json] is not called; and after a
    failed save nothing of the sample is displayed. *)
Theorem main_stops_at_failed_save
  fs (net : network) start_time end_time timestamp e :
  (forall m data, fetched (net m) = Some data -> wf_page data = true) ->
  (forall m, refused (net m) = None) ->
  let data := collected net (py_range START_PAGE (END_PAGE + 1)) 0%nat in
  let csv_filename := ("output/anime_list_" ++ timestamp ++ ".csv")%string in
  let json_filename := ("output/anime_list_" ++ timestamp ++ ".json")%string in
  let m := main fs net start_time end_time timestamp in
  data <> [] ->
  (makedirs fs "output" = Raise e ->
   fst m = Raise e /\ saves (snd m) = [MakeDirs "output"] /\
   exists pre, snd m = pre ++ [MakeDirs "output"]) /\
  (makedirs fs "output" = Ok tt ->
   write_csv fs csv_filename data = Raise e ->
   fst m = Raise e /\
   saves (snd m) = [MakeDirs "output"; SaveCsv csv_filename data] /\
   exists pre, snd m = pre ++ [SaveCsv csv_filename data]) /\
  (makedirs fs "output" = Ok tt ->
   write_csv fs csv_filename data = Ok tt ->
   write_json fs json_filename data = Raise e ->
   fst m = Raise e /\
   saves (snd m) = [MakeDirs "output"; SaveCsv csv_filename data;
                    SaveJson json_filename data] /\
   exists pre, snd m = pre ++ [SaveJson json_filename data]).
Proof.
  intros Hwf Hdec data csv_filename json_filename m Hdata.
  subst csv_filename json_filename m.
  pose proof (scrape_range_collects net START_PAGE END_PAGE
                DELAY_BETWEEN_REQUESTS 0%nat Hwf Hdec) as Hv.
  fold data in Hv.
  rewrite main_run. cbv zeta.
  clearbody data.
  remember (scrape_range net START_PAGE END_PAGE DELAY_BETWEEN_REQUESTS 0%nat)
    as r eqn:Er.
  clear Er. rewrite Hv.
  destruct data as [| a l]; [contradiction |].
  split; [| split].
  - intro Hdir.
    rewrite (main_with_data_no_directory _ _ _ _ _ Hdir). cbn [fst snd].
    split; [reflexivity |]. split.
    + rewrite !saves_app. cbn [saves]. rewrite saves_scraping. reflexivity.
    + eexists. rewrite app_assoc. reflexivity.
  - intros Hdir Hcsv.
    rewrite (main_with_data_no_csv _ _ _ _ _ Hdir Hcsv). cbn [fst snd].
    split; [reflexivity |]. split.
    + rewrite !saves_app. cbn [saves]. rewrite saves_scraping. reflexivity.
    + eexists. rewrite app_assoc. reflexivity.
  - intros Hdir Hcsv Hjson.
    rewrite (main_with_data_no_json _ _ _ _ _ Hdir Hcsv Hjson). cbn [fst snd].
    split; [reflexivity |]. split.
    + rewrite !saves_app. cbn [saves]. rewrite saves_scraping. reflexivity.
    + eexists. rewrite app_assoc. reflexivity.
Qed.

Lemma main_stops_at_failed_save_witness :
  (fst (main fs_read_only net_page1_then_down 0%float 1%float
          "20240101_000000") = Raise OSError /\
   saves (snd (main fs_read_only net_page1_then_down 0%float 1%float
                 "20240101_000000")) = [MakeDirs "output"]) /\
  (fst (main fs_not_encodable net_page1_then_down 0%float 1%float
          "20240101_000000") = Raise UnicodeEncodeError /\
   saves (snd (main fs_not_encodable net_page1_then_down 0%float 1%float
                 "20240101_000000")) =
     [MakeDirs "output";
      SaveCsv "output/anime_list_20240101_000000.csv"
        (collected net_page1_then_down
           (py_range START_PAGE (END_PAGE + 1)) 0%nat)]) /\
  fst (main fs_json_refused net_page1_then_down 0%float 1%float
         "20240101_000000") = Raise OSError.
Proof.
  assert (Hwf : forall m data, fetched (net_page1_then_down m) = Some data ->
                               wf_page data = true).
  { intros m data. destruct m as [| m]; simpl.
    - intro E. injection E as <-. reflexivity.
    - destruct m; discriminate. }
  assert (Hdec : forall m, refused (net_page1_then_down m) = None).
  { apply script_never_refused; repeat constructor. }
  assert (Hdata : collected net_page1_then_down
                    (py_range START_PAGE (END_PAGE + 1)) 0%nat <> []).
  { vm_compute. discriminate. }
  pose proof (main_stops_at_failed_save fs_read_only net_page1_then_down
                0%float 1%float "20240101_000000" OSError Hwf Hdec Hdata)
    as (H1 & _ & _).
  pose proof (main_stops_at_failed_save fs_not_encodable net_page1_then_down
                0%float 1%float "20240101_000000" UnicodeEncodeError
                Hwf Hdec Hdata) as (_ & H2 & _).
  pose proof (main_stops_at_failed_save fs_json_refused net_page1_then_down
                0%float 1%float "20240101_000000" OSError Hwf Hdec Hdata)
    as (_ & _ & H3).
  specialize (H1 eq_refl). specialize (H2 eq_refl eq_refl).
  specialize (H3 eq_refl eq_refl eq_refl).
  split; [| split].
  - split; [exact (proj1 H1) | exact (proj1 (proj2 H1))].
  - split; [exact (proj1 H2) | exact (proj1 (proj2 H2))].
  - exact (proj1 H3).
Defined.
